(** * Rolling resistance calculator

    A shallow embedding of [rolling_resistance_calculator.py]: the physics
    computation, the value formatter, the unique file name resolver and the
    handlers that keep the in-memory list, the spreadsheet and the CSV mirror
    in step.  Python floats are IEEE binary64 numbers, so they are embedded as
    Rocq's primitive floats; exceptions are an explicit result type; the disk
    is a finite map from paths to file contents. *)

From Stdlib Require Import ZArith Floats String Ascii List Lia.
From stdpp Require Import gmap strings list fin_maps pretty.

Set Warnings "-inexact-float".

Local Open Scope string_scope.
Local Open Scope Z_scope.

(** ** Exceptions *)

(** The Python exceptions the program can meet.  [InvalidFile] stands for
    what [load_workbook] raises on a file that is not a workbook. *)
Inductive exn : Set :=
  | ValueError
  | ZeroDivisionError
  | TypeError
  | InvalidFile.

Inductive result (A : Type) : Type :=
  | Ok (a : A)
  | Raise (e : exn).
Arguments Ok {A} a.
Arguments Raise {A} e.

Global Instance result_ret : MRet result := @Ok.
Global Instance result_bind : MBind result := fun A B f m =>
  match m with
  | Ok a => f a
  | Raise e => Raise e
  end.

Definition is_ok {A} (r : result A) : bool :=
  match r with Ok _ => true | Raise _ => false end.

(** ** Python floats *)

Module PyFloat.

(** [math.pi], the binary64 number nearest to pi. *)
Definition pi : float := 0x1.921fb54442d18p+1%float.

(** [a / b] on floats raises on a zero divisor instead of returning an
    infinity. *)
Definition truediv (a b : float) : result float :=
  if PrimFloat.eqb b 0%float then Raise ZeroDivisionError else Ok (a / b)%float.

(** [float(n)] for an int [n]: the binary64 number nearest to it.  The ints
    of this program are small constants, list lengths and numbers read from
    spreadsheet cells, all within the range of a float. *)
Definition of_int (n : Z) : float :=
  SF2Prim (binary_normalize prec emax n 0 false).

(** [len(l)] as the float a division converts it to. *)
Definition of_len (n : nat) : float := of_int (Z.of_nat n).

(** [x / n] for a float [x] and the int [n = len(l)]. *)
Definition truediv_len (x : float) (n : nat) : result float :=
  match n with
  | O => Raise ZeroDivisionError
  | S _ => Ok (x / of_len n)%float
  end.

(** [sum(l)]: the items are added left to right, starting from 0.  (From
    version 3.12 on CPython adds floats with a correction term, which can
    change the last bit of the result.) *)
Definition sum (l : list float) : float :=
  fold_left PrimFloat.add l 0%float.

(** *** Fixed-point formatting, [f"{x:.{dp}f}"] *)

Definition digit_char (n : Z) : ascii := ascii_of_nat (48 + Z.to_nat n).

(** The [k] low decimal digits of [n], most significant first. *)
Fixpoint fixed_digits (k : nat) (n : Z) : string :=
  match k with
  | O => ""
  | S k' => fixed_digits k' (n / 10) +:+ String (digit_char (n mod 10)) ""
  end.

(** [num / den] rounded to the nearest integer, ties to even. *)
Definition round_half_even (num den : Z) : Z :=
  let q := num / den in
  let r := num mod den in
  match 2 * r ?= den with
  | Lt => q
  | Gt => q + 1
  | Eq => if Z.even q then q else q + 1
  end.

(** [|m * 2^e| * 10^dp] rounded to an integer. *)
Definition scaled (m : positive) (e : Z) (dp : nat) : Z :=
  if 0 <=? e
  then Z.pos m * 2 ^ e * 10 ^ Z.of_nat dp
  else round_half_even (Z.pos m * 10 ^ Z.of_nat dp) (2 ^ (- e)).

Definition render (dp : nat) (q : Z) : string :=
  let ip := q / 10 ^ Z.of_nat dp in
  pretty (Z.to_N ip) +:+
  match dp with
  | O => ""
  | S _ => "." +:+ fixed_digits dp (q mod 10 ^ Z.of_nat dp)
  end.

Definition sign_str (s : bool) : string := if s then "-" else "".

Definition format_f (dp : nat) (x : float) : string :=
  match Prim2SF x with
  | S754_nan => "nan"
  | S754_infinity s => sign_str s +:+ "inf"
  | S754_zero s => sign_str s +:+ render dp 0
  | S754_finite s m e => sign_str s +:+ render dp (scaled m e dp)
  end.

End PyFloat.

(** ** Python strings *)

Module PyStr.

(** White space of [str.strip] and [str.split] (the ASCII part). *)
Definition isspace (c : ascii) : bool :=
  let n := nat_of_ascii c in
  ((9 <=? n) && (n <=? 13) || (28 <=? n) && (n <=? 32))%nat.

Fixpoint lstrip (s : string) : string :=
  match s with
  | String c s' => if isspace c then lstrip s' else s
  | EmptyString => EmptyString
  end.

Definition rstrip (s : string) : string :=
  String.rev (lstrip (String.rev s)).

(** [s.strip()] *)
Definition strip (s : string) : string := rstrip (lstrip s).

(** [s.replace(",", ".")] *)
Fixpoint replace_comma (s : string) : string :=
  match s with
  | String c s' =>
      String (if Ascii.eqb c ","%char then "."%char else c) (replace_comma s')
  | EmptyString => EmptyString
  end.

(** [s.split()]: the maximal runs of characters that are not white space. *)
Fixpoint split_go (cur : option string) (s : string) : list string :=
  match s with
  | EmptyString => option_list (String.rev <$> cur)
  | String c s' =>
      if isspace c
      then option_list (String.rev <$> cur) ++ split_go None s'
      else split_go (Some (String c (default EmptyString cur))) s'
  end.
Definition split (s : string) : list string := split_go None s.

Definition lower (c : ascii) : ascii :=
  let n := nat_of_ascii c in
  if ((65 <=? n) && (n <=? 90))%nat then ascii_of_nat (n + 32) else c.

Fixpoint lowercase (s : string) : string :=
  match s with
  | String c s' => String (lower c) (lowercase s')
  | EmptyString => EmptyString
  end.

(** ["0" * n] *)
Definition zeros (n : nat) : string := PyFloat.fixed_digits n 0.

End PyStr.

(** ** Conversions between floats and text *)

Module PyConv.

Definition digit_of (c : ascii) : option Z :=
  let n := nat_of_ascii c in
  if ((48 <=? n) && (n <=? 57))%nat then Some (Z.of_nat (n - 48)) else None.

(** The rest of a [digitpart ::= digit (["_"] digit)*] once its first digit
    is read: the number read so far, how many digits, and what follows. *)
Fixpoint digitpart_go (acc : Z) (cnt : nat) (s : string) : Z * nat * string :=
  match s with
  | String c s' =>
      match digit_of c with
      | Some dg => digitpart_go (10 * acc + dg) (S cnt) s'
      | None =>
          if Ascii.eqb c "_"%char then
            match s' with
            | String c2 s'' =>
                match digit_of c2 with
                | Some dg => digitpart_go (10 * acc + dg) (S cnt) s''
                | None => (acc, cnt, s)
                end
            | EmptyString => (acc, cnt, s)
            end
          else (acc, cnt, s)
      end
  | EmptyString => (acc, cnt, s)
  end.

Definition digitpart (acc : Z) (cnt : nat) (s : string) : option (Z * nat * string) :=
  match s with
  | String c s' =>
      match digit_of c with
      | Some dg => Some (digitpart_go (10 * acc + dg) (S cnt) s')
      | None => None
      end
  | EmptyString => None
  end.

(** [number ::= [digitpart] "." digitpart | digitpart ["."]]: the digits as
    one integer, the number of digits after the point, and what follows. *)
Definition number (s : string) : option (Z * nat * string) :=
  match digitpart 0 0 s with
  | Some (m1, _, String "." r) =>
      match digitpart m1 0 r with
      | Some res => Some res
      | None => Some (m1, O, r)
      end
  | Some (m1, _, r) => Some (m1, O, r)
  | None =>
      match s with
      | String "." r => digitpart 0 0 r
      | _ => None
      end
  end.

(** An optional sign: whether it is a minus, and what follows. *)
Definition split_sign (s : string) : bool * string :=
  match s with
  | String "-" r => (true, r)
  | String "+" r => (false, r)
  | _ => (false, s)
  end.

(** [exponent ::= ("e" | "E") [sign] digitpart], or nothing. *)
Definition exponent (s : string) : option (Z * string) :=
  match s with
  | String c r =>
      if Ascii.eqb (PyStr.lower c) "e"%char then
        let '(neg, r') := split_sign r in
        match digitpart 0 0 r' with
        | Some (ex, _, rest) => Some (if neg then - ex else ex, rest)
        | None => None
        end
      else Some (0, s)
  | EmptyString => Some (0, s)
  end.

(** The binary64 number nearest to [(-1)^s * m * 10^e]. *)
Definition of_decimal (s : bool) (m e : Z) : float :=
  match m with
  | Zpos p =>
      if 0 <=? e
      then SF2Prim (binary_round prec emax s (Z.to_pos (Z.pos p * 10 ^ e)) 0)
      else SF2Prim (SFdiv prec emax (S754_finite s p 0)
                          (S754_finite false (Z.to_pos (10 ^ (- e))) 0))
  | _ => if s then PrimFloat.neg_zero else PrimFloat.zero
  end.

(** [float(s)] for a string: white space around the literal is dropped;
    the literal is a signed decimal number with an optional exponent, or an
    infinity or a nan.  Anything else raises [ValueError]. *)
Definition float_of_string (text : string) : result float :=
  let '(neg, body) := split_sign (PyStr.strip text) in
  let low := PyStr.lowercase body in
  if bool_decide (low = "inf" \/ low = "infinity")
  then Ok (if neg then PrimFloat.neg_infinity else PrimFloat.infinity)
  else if bool_decide (low = "nan") then Ok PrimFloat.nan
  else
    match number body with
    | Some (m, frac, r) =>
        match exponent r with
        | Some (ex, EmptyString) => Ok (of_decimal neg m (ex - Z.of_nat frac))
        | _ => Raise ValueError
        end
    | None => Raise ValueError
    end.

(** *** [repr(x)]: the shortest decimal text that reads back as [x] *)

(** [10^p <= num / den] *)
Definition pow10_le (p num den : Z) : bool :=
  if 0 <=? p then 10 ^ p * den <=? num else den <=? num * 10 ^ (- p).

Fixpoint log10_up (fuel : nat) (p num den : Z) : Z :=
  match fuel with
  | O => p
  | S fuel' => if pow10_le (p + 1) num den then log10_up fuel' (p + 1) num den else p
  end.

(** The [p] with [10^p <= num / den < 10^(p+1)]. *)
Definition floor_log10 (num den : Z) : Z :=
  let p0 := (Z.log2 num - Z.log2 den - 1) * 30103 / 100000 - 1 in
  log10_up 4 p0 num den.

(** [num / den] rounded to [k] significant digits: the digits as an integer
    and the position of the decimal point after the first digit. *)
Definition to_digits (k : Z) (num den : Z) : Z * Z :=
  let p := floor_log10 num den in
  let t := k - 1 - p in
  let q := if 0 <=? t
           then PyFloat.round_half_even (num * 10 ^ t) den
           else PyFloat.round_half_even num (den * 10 ^ (- t)) in
  if q =? 10 ^ k then (10 ^ (k - 1), p + 1) else (q, p).

Fixpoint shortest (fuel : nat) (k : Z) (x : float) (num den : Z) : Z * Z * Z :=
  let '(q, p) := to_digits k num den in
  match fuel with
  | O => (k, q, p)
  | S fuel' =>
      if PrimFloat.eqb (of_decimal false q (p - k + 1)) x
      then (k, q, p)
      else shortest fuel' (k + 1) x num den
  end.

Definition exp_text (ex : Z) : string :=
  (if ex <? 0 then "-" else "+") +:+
  (if Z.abs ex <? 10 then "0" else "") +:+ pretty (Z.to_N (Z.abs ex)).

Definition repr_finite (m : positive) (e : Z) : string :=
  let '(num, den) := if 0 <=? e then (Z.pos m * 2 ^ e, 1) else (Z.pos m, 2 ^ (- e)) in
  let x := SF2Prim (S754_finite false m e) in
  let '(k, q, p) := shortest 16 1 x num den in
  let ds := pretty (Z.to_N q) in
  let decpt := p + 1 in
  if (decpt <=? -4) || (16 <? decpt) then
    String.substring 0 1 ds +:+
    (if 1 <? k then "." +:+ String.substring 1 (Z.to_nat k - 1) ds else "") +:+
    "e" +:+ exp_text (decpt - 1)
  else if decpt <=? 0 then
    "0." +:+ PyStr.zeros (Z.to_nat (- decpt)) +:+ ds
  else if decpt <? k then
    String.substring 0 (Z.to_nat decpt) ds +:+ "." +:+
    String.substring (Z.to_nat decpt) (Z.to_nat (k - decpt)) ds
  else ds +:+ PyStr.zeros (Z.to_nat (decpt - k)) +:+ ".0".

Definition repr (x : float) : string :=
  match Prim2SF x with
  | S754_nan => "nan"
  | S754_infinity s => PyFloat.sign_str s +:+ "inf"
  | S754_zero s => PyFloat.sign_str s +:+ "0.0"
  | S754_finite s m e => PyFloat.sign_str s +:+ repr_finite m e
  end.

End PyConv.

(** ** Values and records *)

(** What a dictionary entry or a spreadsheet cell can hold.  [VOther] is any
    object that is neither a number nor text (a date read from a cell);
    it carries the text [str] gives for it. *)
Inductive value : Type :=
  | VNone
  | VStr (s : string)
  | VFloat (x : float)
  | VInt (n : Z)
  | VBool (b : bool)
  | VOther (text : string).

(** A measurement row: a Python [dict] from column names to values. *)
Abbreviation row := (gmap string value).

(** [row.get(key, default)] *)
Definition dict_get (r : row) (key : string) (dflt : value) : value :=
  default dflt (r !! key).

(** [str(v)] *)
Definition py_str (v : value) : string :=
  match v with
  | VNone => "None"
  | VStr s => s
  | VFloat x => PyConv.repr x
  | VInt n => pretty n
  | VBool b => if b then "True" else "False"
  | VOther text => text
  end.

(** [float(v)] *)
Definition py_float (v : value) : result float :=
  match v with
  | VNone => Raise TypeError
  | VStr s => PyConv.float_of_string s
  | VFloat x => Ok x
  | VInt n => Ok (PyFloat.of_int n)
  | VBool b => Ok (if b then 1%float else 0%float)
  | VOther _ => Raise TypeError
  end.

(** ** Constants *)

Definition d : float := 0.645%float.
Definition rpm : Z := 213.
Definition V_supply : Z := 12.
Definition g : float := 9.81%float.
Definition l_hang : float := 0.875%float.
Definition l_reifen : float := 0.358%float.

Definition FIELDNAMES : list string :=
  [ "Tire name / type";
    "Tire pressure [bar]";
    "Idle currents [A]";
    "Load currents [A]";
    "Mean idle current [A]";
    "Mean load current [A]";
    "Weight on lever [kg]";
    "Effective weight on tire [kg]";
    "Speed [m/s]";
    "P_0 [W]";
    "P_load [W]";
    "P_rr [W]";
    "C_rr" ].

(** ** [format_value] *)

Definition decimal_places : gmap string nat :=
  list_to_map
    [ ("Mean idle current [A]", 3%nat);
      ("Mean load current [A]", 3%nat);
      ("Speed [m/s]", 3%nat);
      ("P_0 [W]", 2%nat);
      ("P_load [W]", 2%nat);
      ("P_rr [W]", 2%nat);
      ("C_rr", 6%nat);
      ("Effective weight on tire [kg]", 3%nat);
      ("Weight on lever [kg]", 3%nat);
      ("Tire pressure [bar]", 2%nat) ].

(** The branch for [isinstance(value, (float, int))], [x] being
    [float(value)]. *)
Definition format_number (key : string) (x : float) : value :=
  let dp := default 3%nat (decimal_places !! key) in
  let s := PyFloat.format_f dp x in
  VStr (PyStr.replace_comma s).

Definition format_value (key : string) (v : value) : value :=
  match v with
  | VNone => VStr ""
  | VStr "" => VStr ""
  | VFloat x => format_number key x
  | VInt n => format_number key (PyFloat.of_int n)
  | VBool b => format_number key (if b then 1%float else 0%float)
  | VStr s => VStr (PyStr.replace_comma s)
  | VOther text => VOther text
  end.

(** ** [compute_result] *)

Definition compute_result (idle_values load_values : list float) (m_hang : float)
  : result row :=
  let U := (PyFloat.pi * d)%float in
  q ← PyFloat.truediv (PyFloat.of_int rpm) 60%float;
  let v := (U * q)%float in
  I_idle ← PyFloat.truediv_len (PyFloat.sum idle_values) (length idle_values);
  I_load ← PyFloat.truediv_len (PyFloat.sum load_values) (length load_values);
  m_eff ← PyFloat.truediv (m_hang * l_hang)%float l_reifen;
  let P0 := (PyFloat.of_int V_supply * I_idle)%float in
  let P_weighted := (PyFloat.of_int V_supply * I_load)%float in
  let P_rr := (P_weighted - P0)%float in
  C_rr ← PyFloat.truediv P_rr (m_eff * g * v)%float;
  Ok (list_to_map
        [ ("Speed [m/s]", VFloat v);
          ("Mean idle current [A]", VFloat I_idle);
          ("Mean load current [A]", VFloat I_load);
          ("Weight on lever [kg]", VFloat m_hang);
          ("Effective weight on tire [kg]", VFloat m_eff);
          ("P_0 [W]", VFloat P0);
          ("P_load [W]", VFloat P_weighted);
          ("P_rr [W]", VFloat P_rr);
          ("C_rr", VFloat C_rr) ]).

(** ** [parse_float_list] *)

Definition parse_float_list (text : string) : result (list float) :=
  let parts := PyStr.split (PyStr.strip text) in
  match parts with
  | [] => Raise ValueError
  | _ => mapM (fun p => PyConv.float_of_string (PyStr.replace_comma p)) parts
  end.

(** ** Files *)

(** A cell style, by the format properties the program sets. *)
Record style : Set := {
  st_bold : bool;
  st_bg_color : string;
  st_align : string;
  st_border : nat
}.

Global Instance style_eq_dec : EqDecision style.
Proof. solve_decision. Defined.

Definition default_style : style :=
  {| st_bold := false; st_bg_color := ""; st_align := ""; st_border := 0 |}.

Record cell : Type := {
  cell_value : value;
  cell_style : option style
}.

Definition empty_cell : cell := {| cell_value := VNone; cell_style := None |}.

(** [cell.has_style] *)
Definition has_style (c : cell) : bool :=
  match cell_style c with
  | Some s => negb (bool_decide (s = default_style))
  | None => false
  end.

(** A worksheet: its cells by (row, column), both counted from 1. *)
Abbreviation worksheet := (gmap (nat * nat) cell).

Record workbook : Type := {
  wb_sheets : list (string * worksheet);
  wb_active : nat
}.

Inductive file : Type :=
  | Xlsx (wb : workbook)
  | Text (content : string)
  | Garbage.

(** The disk: the files that exist, by path. *)
Abbreviation disk := (gmap string file).

(** [os.path.exists(path)] *)
Definition path_exists (fs : disk) (path : string) : bool :=
  bool_decide (is_Some (fs !! path)).

(** ** [get_unique_filename] *)

Fixpoint rfind_go (c : ascii) (s : string) (i last : Z) : Z :=
  match s with
  | String a s' => rfind_go c s' (i + 1) (if Ascii.eqb a c then i else last)
  | EmptyString => last
  end.

(** [s.rfind(c)]: the last index of [c] in [s], or -1. *)
Definition rfind (c : ascii) (s : string) : Z := rfind_go c s 0 (-1).

(** The loop of [splitext] that skips the leading dots of the file name:
    whether a character other than a dot stands at an index from [i] on,
    among the next [n] ones. *)
Fixpoint dot_after_name (n : nat) (p : string) (i : nat) : bool :=
  match n with
  | O => false
  | S n' =>
      if bool_decide (String.get i p = Some "."%char)
      then dot_after_name n' p (S i)
      else true
  end.

(** [os.path.splitext(p)], with "/" as the separator: the extension starts
    at the last dot of the last component, unless only dots precede it
    there. *)
Definition splitext (p : string) : string * string :=
  let sepIndex := rfind "/"%char p in
  let dotIndex := rfind "."%char p in
  if (sepIndex <? dotIndex) &&
     dot_after_name (Z.to_nat (dotIndex - (sepIndex + 1))) p (Z.to_nat (sepIndex + 1))
  then (String.substring 0 (Z.to_nat dotIndex) p,
        String.substring (Z.to_nat dotIndex) (String.length p - Z.to_nat dotIndex) p)
  else (p, "").

(** [f"{name} ({counter}){ext}"] *)
Definition candidate (name ext : string) (counter : nat) : string :=
  name +:+ " (" +:+ pretty counter +:+ ")" +:+ ext.

(** The [while True] loop, run for at most [fuel] rounds. *)
Fixpoint unique_loop (fuel : nat) (fs : disk) (name ext : string) (counter : nat)
  : option string :=
  match fuel with
  | O => None
  | S fuel' =>
      if path_exists fs (candidate name ext counter)
      then unique_loop fuel' fs name ext (S counter)
      else Some (candidate name ext counter)
  end.

Definition get_unique_filename (fuel : nat) (fs : disk) (base_path : string)
  : option string :=
  if negb (path_exists fs base_path) then Some base_path
  else
    let '(name, ext) := splitext base_path in
    unique_loop fuel fs name ext 2.

(** ** Worksheets *)

(** [ws.max_row] and [ws.max_column]: 1 on a sheet without cells. *)
Definition max_row (ws : worksheet) : nat :=
  Nat.max 1 (max_list ((fun kc => fst (fst kc)) <$> map_to_list ws)).

Definition max_column (ws : worksheet) : nat :=
  Nat.max 1 (max_list ((fun kc => snd (fst kc)) <$> map_to_list ws)).

(** The cell at a position, as [ws.cell(row, column)] returns it.  (The call
    also adds the cell to the sheet when it is missing; such a cell is empty
    and unstyled, lies within [max_row] and [max_column] where the program
    asks for it, and is dropped when the workbook is saved.) *)
Definition ws_cell (ws : worksheet) (r c : nat) : cell :=
  default empty_cell (ws !! (r, c)).

(** [ws.cell(row=r, column=c, value=v)]: the value is set unless it is
    [None]; the style of a cell that is already there is kept. *)
Definition ws_write (ws : worksheet) (r c : nat) (v : value) : worksheet :=
  let old := ws_cell ws r c in
  <[(r, c) := {| cell_value := match v with VNone => cell_value old | _ => v end;
                 cell_style := cell_style old |}]> ws.

(** [ws.cell(r, c)._style = s] *)
Definition ws_set_style (ws : worksheet) (r c : nat) (s : option style) : worksheet :=
  <[(r, c) := {| cell_value := cell_value (ws_cell ws r c); cell_style := s |}]> ws.

(** The values of row [r], columns 1 to [max_column]: [ws[r]] and the tuples
    of [ws.iter_rows(values_only=True)]. *)
Definition row_values (ws : worksheet) (r : nat) : list value :=
  (fun c => cell_value (ws_cell ws r c)) <$> seq 1 (max_column ws).

Definition is_none (v : value) : bool :=
  match v with VNone => true | _ => false end.

(** [wb["Data"] if "Data" in wb.sheetnames else wb.active], as the index of
    the sheet. *)
Fixpoint sheet_index (name : string) (sheets : list (string * worksheet)) : option nat :=
  match sheets with
  | [] => None
  | (n, _) :: rest =>
      if bool_decide (n = name) then Some O else S <$> sheet_index name rest
  end.

Definition data_sheet (wb : workbook) : result (nat * worksheet) :=
  let i := default (wb_active wb) (sheet_index "Data" (wb_sheets wb)) in
  match wb_sheets wb !! i with
  | Some (_, ws) => Ok (i, ws)
  | None => Raise TypeError
  end.

(** [load_workbook(path)] *)
Definition load_workbook (fs : disk) (path : string) : result workbook :=
  match fs !! path with
  | Some (Xlsx wb) => Ok wb
  | _ => Raise InvalidFile
  end.

(** What a file holds for the value of a cell: a cell that holds the empty
    string is written without a value, and read back as [None]. *)
Definition stored (v : value) : value :=
  match v with VStr "" => VNone | _ => v end.

(** What [wb.save] writes of a sheet: the cells that hold a value or a
    style, each with its value as the file holds it. *)
Definition saved_cells (ws : worksheet) : worksheet :=
  (fun c => {| cell_value := stored (cell_value c); cell_style := cell_style c |})
    <$> filter (fun kc => is_none (cell_value (snd kc)) = false \/
                          has_style (snd kc) = true) ws.

(** [wb.save(path)] after the sheet at index [i] was changed to [ws]. *)
Definition save_workbook (fs : disk) (path : string) (wb : workbook) (i : nat)
    (ws : worksheet) : disk :=
  let sheets :=
    (fun nws => (fst nws, saved_cells (snd nws)))
      <$> alter (fun nws => (fst nws, ws)) i (wb_sheets wb) in
  <[path := Xlsx {| wb_sheets := sheets; wb_active := wb_active wb |}]> fs.

(** *** Reading the data rows *)

(** The dictionary of one row: [row_dict[str(col_name)] = val] for every
    header cell that is not empty, in column order. *)
Fixpoint row_dict (i : nat) (header : list value) (vals : list value) (acc : row) : row :=
  match header with
  | [] => acc
  | col_name :: rest =>
      let acc' :=
        if is_none col_name then acc
        else <[py_str col_name := default (VStr "") (vals !! i)]> acc in
      row_dict (S i) rest vals acc'
  end.

(** The rows from row 2 on that hold a value, each as a dictionary. *)
Definition sheet_rows (ws : worksheet) : list row :=
  let header := row_values ws 1 in
  omap (fun r =>
          let vals := row_values ws r in
          if forallb is_none vals then None
          else Some (row_dict 0 header vals ∅))
       (seq 2 (max_row ws - 1)).

(** The body of the [try] that reads the spreadsheet. *)
Definition read_rows (fs : disk) (path : string) : result (list row) :=
  wb ← load_workbook fs path;
  iws ← data_sheet wb;
  Ok (sheet_rows (snd iws)).

(** ** The application *)

(** The text fields of the form. *)
Record entries : Set := {
  entry_tire : string;
  entry_weight : string;
  entry_idle : string;
  entry_load : string;
  entry_pressure : string
}.

Record RollingResistanceApp : Type := {
  saved_rows : list row;
  last_result : option row;
  filename_xlsx : string;
  filename_csv : string;
  labels : list (string * string)
}.

(** [tire_groups]: the points per tire name, the names in the order they
    are first met. *)
Abbreviation groups := (list (string * list (float * float))).

(** What [ax.plot] is given for one tire. *)
Record curve : Type := {
  curve_label : string;
  curve_color : string;
  curve_points : list (float * float)
}.

(** What the user is shown. *)
Inductive event : Type :=
  | ErrInput (e : exn)
  | ErrAppend (e : exn)
  | ErrCalculateFirst
  | InfoSaved (n : nat)
  | ErrNoDataToExport
  | ErrReadExcel (e : exn)
  | ErrNoDataToPlot
  | ErrNoValidPlotData
  | OpenFile (path : string)
  | ShowPlot (curves : list curve).

Record world : Type := {
  files : disk;
  shown : list event
}.

Definition show (ev : event) (w : world) : world :=
  {| files := files w; shown := shown w ++ [ev] |}.

Definition with_files (fs : disk) (w : world) : world :=
  {| files := fs; shown := shown w |}.

(** How a handler ends: it returns, or an exception leaves it uncaught. *)
Inductive outcome : Type :=
  | Returned (a : RollingResistanceApp) (w : world)
  | Uncaught (e : exn) (a : RollingResistanceApp) (w : world).

(** *** [on_calculate] *)

(** The weight field: empty is an error, else it is read as a float. *)
Definition parse_weight (text : string) : result float :=
  let w_text := PyStr.strip (PyStr.replace_comma text) in
  if bool_decide (w_text = "") then Raise ValueError
  else PyConv.float_of_string w_text.

(** The body of the [try]: the label texts and the new [last_result]. *)
Definition calculate (en : entries) : result (list (string * string) * row) :=
  idle_values ← parse_float_list (entry_idle en);
  load_values ← parse_float_list (entry_load en);
  m_hang ← parse_weight (entry_weight en);
  core_result ← compute_result idle_values load_values m_hang;
  let tire_name := PyStr.strip (entry_tire en) in
  let tire_pressure := PyStr.strip (PyStr.replace_comma (entry_pressure en)) in
  let num dp key :=
    match core_result !! key with
    | Some (VFloat x) => PyFloat.format_f dp x
    | _ => ""
    end in
  let dash s := if bool_decide (s = "") then "-" else s in
  Ok ([ ("label_speed_val", num 3%nat "Speed [m/s]");
        ("label_I_idle_val", num 3%nat "Mean idle current [A]");
        ("label_I_load_val", num 3%nat "Mean load current [A]");
        ("label_P0_val", num 3%nat "P_0 [W]");
        ("label_Pw_val", num 3%nat "P_load [W]");
        ("label_Prr_val", num 3%nat "P_rr [W]");
        ("label_mhang_val", num 3%nat "Weight on lever [kg]");
        ("label_meff_val", num 3%nat "Effective weight on tire [kg]");
        ("label_Crr_val", num 6%nat "C_rr");
        ("label_tire_val", dash tire_name);
        ("label_pressure_val", dash tire_pressure) ],
      core_result ∪
      list_to_map
        [ ("Tire name / type", VStr tire_name);
          ("Tire pressure [bar]", VStr tire_pressure);
          ("Idle currents [A]", VStr (PyStr.strip (entry_idle en)));
          ("Load currents [A]", VStr (PyStr.strip (entry_load en))) ]).

(** Only [ValueError] is caught. *)
Definition on_calculate (en : entries) (a : RollingResistanceApp) (w : world) : outcome :=
  match calculate en with
  | Ok (lbls, res) =>
      Returned {| saved_rows := saved_rows a; last_result := Some res;
                  filename_xlsx := filename_xlsx a; filename_csv := filename_csv a;
                  labels := lbls |} w
  | Raise ValueError => Returned a (show (ErrInput ValueError) w)
  | Raise e => Uncaught e a w
  end.

(** *** [_append_last_result_to_excel_if_exists] *)

(** The header is written when the sheet is empty. *)
Definition write_header (ws : worksheet) : worksheet :=
  if bool_decide (max_row ws = 1%nat) && forallb is_none (row_values ws 1)
  then foldl (fun acc cn => ws_write acc 1 (fst cn) (VStr (snd cn)))
             ws (zip (seq 1 (length FIELDNAMES)) FIELDNAMES)
  else ws.

(** One round of the loop over the columns: the value is written, then the
    style of the template cell, if it has one, is put on the new cell. *)
Definition append_cell (res : row) (new_row_idx template_row_idx : nat)
    (ws : worksheet) (cn : nat * string) : worksheet :=
  let col := fst cn in
  let key := snd cn in
  let val := format_value key (dict_get res key (VStr "")) in
  let ws1 := ws_write ws new_row_idx col val in
  let template_cell := ws_cell ws1 template_row_idx col in
  if has_style template_cell
  then ws_set_style ws1 new_row_idx col (cell_style template_cell)
  else ws1.

Definition append_to_sheet (res : row) (ws0 : worksheet) : worksheet :=
  let ws := write_header ws0 in
  let new_row_idx := (max_row ws + 1)%nat in
  let template_row_idx := if (2 <=? max_row ws)%nat then 2%nat else 1%nat in
  foldl (append_cell res new_row_idx template_row_idx) ws
        (zip (seq 1 (length FIELDNAMES)) FIELDNAMES).

(** The body of the [try]. *)
Definition append_to_excel (res : row) (fs : disk) (path : string) : result disk :=
  wb ← load_workbook fs path;
  iws ← data_sheet wb;
  Ok (save_workbook fs path wb (fst iws) (append_to_sheet res (snd iws))).

Definition _append_last_result_to_excel_if_exists (a : RollingResistanceApp) (w : world) : world :=
  match last_result a with
  | None => w
  | Some res =>
      if negb (path_exists (files w) (filename_xlsx a)) then w
      else
        match append_to_excel res (files w) (filename_xlsx a) with
        | Ok fs => with_files fs w
        | Raise e => show (ErrAppend e) w
        end
  end.

(** *** [on_save_to_list] *)

Definition on_save_to_list (a : RollingResistanceApp) (w : world) : outcome :=
  match last_result a with
  | None => Returned a (show ErrCalculateFirst w)
  | Some res =>
      let a' := {| saved_rows := saved_rows a ++ [res];
                   last_result := last_result a;
                   filename_xlsx := filename_xlsx a;
                   filename_csv := filename_csv a;
                   labels := labels a |} in
      let w' := _append_last_result_to_excel_if_exists a' w in
      Returned a' (show (InfoSaved (length (saved_rows a'))) w')
  end.

(** *** [on_go_to_excel] *)

Definition header_format : style :=
  {| st_bold := true; st_bg_color := "#D9D9D9"; st_align := "center"; st_border := 1 |}.

Definition cell_format : style :=
  {| st_bold := false; st_bg_color := ""; st_align := "center"; st_border := 1 |}.

(** [worksheet.write(row, col, val, format)] of xlsxwriter, rows and columns
    counted from 0: an empty string gives a blank cell that only carries
    the format. *)
Definition xlsx_write (ws : worksheet) (row col : nat) (val : value) (fmt : style)
  : worksheet :=
  <[(S row, S col) :=
      {| cell_value := match val with VStr "" => VNone | _ => val end;
         cell_style := Some fmt |}]> ws.

Definition xlsx_write_row (res : row) (row_idx : nat) (ws : worksheet) : worksheet :=
  foldl (fun acc cn =>
           xlsx_write acc row_idx (fst cn)
             (format_value (snd cn) (dict_get res (snd cn) (VStr ""))) cell_format)
        ws (zip (seq 0 (length FIELDNAMES)) FIELDNAMES).

(** The workbook created from the list: one sheet "Data", the header in
    [header_format], one row per saved row in [cell_format].  (The column
    width it also sets is not part of a cell.) *)
Definition create_workbook (rows : list row) : workbook :=
  let ws0 : worksheet :=
    foldl (fun acc cn => xlsx_write acc 0 (fst cn) (VStr (snd cn)) header_format)
          ∅ (zip (seq 0 (length FIELDNAMES)) FIELDNAMES) in
  let ws :=
    foldl (fun acc ir => xlsx_write_row (snd ir) (fst ir) acc)
          ws0 (zip (seq 1 (length rows)) rows) in
  {| wb_sheets := [("Data", ws)]; wb_active := 0 |}.

(** The text the csv writer puts for a field: [None] is empty, anything
    else is its [str]. *)
Definition csv_text (v : value) : string :=
  match v with
  | VNone => ""
  | _ => py_str v
  end.

Definition CR : ascii := "013"%char.
Definition LF : ascii := "010"%char.
Definition QUOTE : ascii := "034"%char.

(** Whether a character makes the writer quote the field: the delimiter, the
    quote character, or a character of the line terminator. *)
Definition csv_special (c : ascii) : bool :=
  Ascii.eqb c ";"%char || Ascii.eqb c QUOTE || Ascii.eqb c CR || Ascii.eqb c LF.

Fixpoint csv_needs_quotes (s : string) : bool :=
  match s with
  | String c s' => csv_special c || csv_needs_quotes s'
  | EmptyString => false
  end.

(** Quote characters are doubled inside a quoted field. *)
Fixpoint csv_double_quotes (s : string) : string :=
  match s with
  | String c s' =>
      if Ascii.eqb c QUOTE
      then String c (String c (csv_double_quotes s'))
      else String c (csv_double_quotes s')
  | EmptyString => EmptyString
  end.

Definition csv_field (s : string) : string :=
  if csv_needs_quotes s
  then String QUOTE (csv_double_quotes s) +:+ String QUOTE ""
  else s.

Fixpoint csv_join (fields : list string) : string :=
  match fields with
  | [] => ""
  | [f] => f
  | f :: rest => f +:+ ";" +:+ csv_join rest
  end.

(** [writer.writerow(fields)] with [delimiter=";"]: one record, ended by
    the line terminator. *)
Definition csv_record (fields : list string) : string :=
  csv_join (csv_field <$> fields) +:+ String CR (String LF "").

(** The fields of the record written for a row:
    [{key: format_value(key, row.get(key, "")) for key in FIELDNAMES}]. *)
Definition mirror_fields (res : row) : list string :=
  (fun key => csv_text (format_value key (dict_get res key (VStr "")))) <$> FIELDNAMES.

(** The records of the mirror: the header, then one per row. *)
Definition mirror_records (rows : list row) : list (list string) :=
  FIELDNAMES :: (mirror_fields <$> rows).

(** What is written to the CSV file opened with mode "w". *)
Definition mirror_text (rows : list row) : string :=
  foldr (fun fields acc => csv_record fields +:+ acc) "" (mirror_records rows).

(** The spreadsheet is created from the list when it is not on disk; [None]
    when there is nothing to create it from. *)
Definition ensure_workbook (a : RollingResistanceApp) (fs : disk) : option disk :=
  if negb (path_exists fs (filename_xlsx a)) then
    match saved_rows a with
    | [] => None
    | _ => Some (<[filename_xlsx a := Xlsx (create_workbook (saved_rows a))]> fs)
    end
  else Some fs.

Definition on_go_to_excel (a : RollingResistanceApp) (w : world) : outcome :=
  match ensure_workbook a (files w) with
  | None => Returned a (show ErrNoDataToExport w)
  | Some fs1 =>
      match read_rows fs1 (filename_xlsx a) with
      | Raise e => Returned a (show (ErrReadExcel e) (with_files fs1 w))
      | Ok rows =>
          let fs2 := <[filename_csv a := Text (mirror_text rows)]> fs1 in
          Returned a (show (OpenFile (filename_xlsx a)) (with_files fs2 w))
      end
  end.

(** *** [on_plot_pressure_vs_crr] *)

(** The rows to plot: those of the spreadsheet when it is on disk, the saved
    list when that gave none. *)
Inductive plot_source : Type :=
  | PlotRows (rows : list row)
  | PlotReadError (e : exn)
  | PlotNoData.

Definition plot_rows (a : RollingResistanceApp) (fs : disk) : plot_source :=
  let from_file :=
    if path_exists fs (filename_xlsx a)
    then read_rows fs (filename_xlsx a)
    else Ok [] in
  match from_file with
  | Raise e => PlotReadError e
  | Ok [] =>
      match saved_rows a with
      | [] => PlotNoData
      | _ => PlotRows (saved_rows a)
      end
  | Ok rows => PlotRows rows
  end.

(** What one row adds to the plot: nothing when it is skipped, a point of a
    tire's curve, or an exception that the loop does not catch. *)
Inductive plot_point : Type :=
  | Skipped
  | Point (name : string) (p crr : float)
  | Failed (e : exn).

Definition row_point (res : row) : plot_point :=
  let name := PyStr.strip (py_str (dict_get res "Tire name / type" (VStr ""))) in
  let name := if bool_decide (name = "") then "Unknown tire" else name in
  let pressure_text :=
    PyStr.replace_comma (py_str (dict_get res "Tire pressure [bar]" (VStr ""))) in
  let crr_value := dict_get res "C_rr" VNone in
  if bool_decide (pressure_text = "") || is_none crr_value then Skipped
  else
    match PyConv.float_of_string pressure_text with
    | Raise ValueError => Skipped
    | Raise e => Failed e
    | Ok p =>
        match py_float crr_value with
        | Raise ValueError => Skipped
        | Raise e => Failed e
        | Ok crr => Point name p crr
        end
    end.

(** [tire_groups[name].append((p, crr))], the name added last when new. *)
Fixpoint add_point (name : string) (pt : float * float) (gs : groups) : groups :=
  match gs with
  | [] => [(name, [pt])]
  | (n, pts) :: rest =>
      if bool_decide (n = name) then (n, (pts ++ [pt])%list) :: rest
      else (n, pts) :: add_point name pt rest
  end.

Fixpoint group_rows (rows : list row) (gs : groups) : result groups :=
  match rows with
  | [] => Ok gs
  | res :: rest =>
      match row_point res with
      | Skipped => group_rows rest gs
      | Point name p crr => group_rows rest (add_point name (p, crr) gs)
      | Failed e => Raise e
      end
  end.

Definition colors : list string :=
  [ "steelblue"; "firebrick"; "seagreen"; "darkorange"; "purple"; "gold"; "black" ].

(** [sorted(values, key=lambda x: x[0])]: a stable sort by pressure, here by
    insertion behind the points that are not larger (the order of a list
    with a nan among its pressures is left to Python's algorithm). *)
Fixpoint insert_point (pt : float * float) (l : list (float * float))
  : list (float * float) :=
  match l with
  | [] => [pt]
  | q :: l' =>
      if PrimFloat.ltb (fst pt) (fst q) then pt :: q :: l'
      else q :: insert_point pt l'
  end.

Definition sorted_points (values : list (float * float)) : list (float * float) :=
  foldl (fun acc pt => insert_point pt acc) [] values.

(** The curves of the figure, one per tire, with the colors in turn. *)
Definition curves_of (gs : groups) : list curve :=
  imap (fun i g =>
          {| curve_label := fst g;
             curve_color := nth (i mod length colors) colors "";
             curve_points := sorted_points (snd g) |}) gs.

Definition on_plot_pressure_vs_crr (a : RollingResistanceApp) (w : world) : outcome :=
  match plot_rows a (files w) with
  | PlotReadError e => Returned a (show (ErrReadExcel e) w)
  | PlotNoData => Returned a (show ErrNoDataToPlot w)
  | PlotRows rows =>
      match group_rows rows [] with
      | Raise e => Uncaught e a w
      | Ok [] => Returned a (show ErrNoValidPlotData w)
      | Ok gs => Returned a (show (ShowPlot (curves_of gs)) w)
      end
  end.

(** ** Starting the program and pressing buttons *)

(** [os.path.join(a, b)], with "/" as the separator. *)
Definition path_join (a b : string) : string :=
  match b with
  | String "/" _ => b
  | _ =>
      if bool_decide (a = "") ||
         bool_decide (String.get (String.length a - 1) a = Some "/"%char)
      then a +:+ b
      else a +:+ "/" +:+ b
  end.

(** The value labels as [_build_ui] creates them. *)
Definition initial_labels : list (string * string) :=
  (fun name => (name, "-")) <$>
    [ "label_speed_val"; "label_I_idle_val"; "label_I_load_val"; "label_P0_val";
      "label_Pw_val"; "label_Prr_val"; "label_mhang_val"; "label_meff_val";
      "label_tire_val"; "label_pressure_val"; "label_Crr_val" ].

(** [RollingResistanceApp.__init__], for the directory of the script: the
    list is empty, there is no result, and the two file names are resolved
    once against the disk. *)
Definition init (fuel : nat) (fs : disk) (script_dir : string)
  : option RollingResistanceApp :=
  let base_xlsx := path_join script_dir "rolling_resistance_data.xlsx" in
  let base_csv := path_join script_dir "rolling_resistance_data.csv" in
  fx ← get_unique_filename fuel fs base_xlsx;
  fc ← get_unique_filename fuel fs base_csv;
  Some {| saved_rows := []; last_result := None;
          filename_xlsx := fx; filename_csv := fc;
          labels := initial_labels |}.

(** The four buttons; Calculate reads the form. *)
Inductive action : Set :=
  | Calculate (en : entries)
  | SaveToList
  | GoToExcel
  | CreatePlot.

Definition handle (act : action) (a : RollingResistanceApp) (w : world) : outcome :=
  match act with
  | Calculate en => on_calculate en a w
  | SaveToList => on_save_to_list a w
  | GoToExcel => on_go_to_excel a w
  | CreatePlot => on_plot_pressure_vs_crr a w
  end.

Definition outcome_app (o : outcome) : RollingResistanceApp :=
  match o with Returned a _ | Uncaught _ a _ => a end.

Definition outcome_world (o : outcome) : world :=
  match o with Returned _ w | Uncaught _ _ w => w end.

(** [root.mainloop()]: the handlers of the buttons pressed run one after
    the other; an exception a handler lets through is reported by Tk and
    the loop goes on. *)
Fixpoint run (acts : list action) (a : RollingResistanceApp) (w : world)
  : RollingResistanceApp * world :=
  match acts with
  | [] => (a, w)
  | act :: rest =>
      let o := handle act a w in
      run rest (outcome_app o) (outcome_world o)
  end.

(** ** The specification's side *)

(** The derived quantities as the specification's algorithm gives them, with
    plain float arithmetic. *)
Definition spec_speed : float :=
  (PyFloat.pi * 0.645 * (213 / 60))%float.

Definition spec_mean (l : list float) : float :=
  (PyFloat.sum l / PyFloat.of_len (length l))%float.

Definition spec_m_eff (m_hang : float) : float :=
  (m_hang * 0.875 / 0.358)%float.

Definition spec_divisor (m_hang : float) : float :=
  (spec_m_eff m_hang * 9.81 * spec_speed)%float.

Definition spec_record (idle load : list float) (m_hang : float) : row :=
  let I0 := spec_mean idle in
  let IL := spec_mean load in
  let P0 := (12 * I0)%float in
  let PL := (12 * IL)%float in
  let P_rr := (PL - P0)%float in
  list_to_map
    [ ("Speed [m/s]", VFloat spec_speed);
      ("Mean idle current [A]", VFloat I0);
      ("Mean load current [A]", VFloat IL);
      ("Weight on lever [kg]", VFloat m_hang);
      ("Effective weight on tire [kg]", VFloat (spec_m_eff m_hang));
      ("P_0 [W]", VFloat P0);
      ("P_load [W]", VFloat PL);
      ("P_rr [W]", VFloat P_rr);
      ("C_rr", VFloat (P_rr / spec_divisor m_hang)%float) ].

(** A field of a computed record, rounded to [dp] decimal places. *)
Definition rounded (dp : nat) (key : string) (r : result row) : option string :=
  match r with
  | Ok res =>
      match res !! key with
      | Some (VFloat x) => Some (PyFloat.format_f dp x)
      | _ => None
      end
  | Raise _ => None
  end.

(** The concrete scenario of the specification. *)
Definition scenario_idle : list float := [0.50; 0.51; 0.49]%float.
Definition scenario_load : list float := [1.20; 1.22; 1.18]%float.
Definition scenario_m_hang : float := 2%float.

(** The decimal places the specification gives per field. *)
Definition spec_places (key : string) : nat :=
  if bool_decide (key ∈ ["Mean idle current [A]"; "Mean load current [A]";
                         "Speed [m/s]"; "Weight on lever [kg]";
                         "Effective weight on tire [kg]"]) then 3%nat
  else if bool_decide (key ∈ ["P_0 [W]"; "P_load [W]"; "P_rr [W]";
                              "Tire pressure [bar]"]) then 2%nat
  else if bool_decide (key = "C_rr") then 6%nat
  else 3%nat.

Definition is_digit (c : ascii) : bool :=
  let n := nat_of_ascii c in ((48 <=? n) && (n <=? 57))%nat.

Fixpoint all_digits (s : string) : bool :=
  match s with
  | String c s' => is_digit c && all_digits s'
  | EmptyString => true
  end.

(** Text in fixed-point form with [dp] decimal places: an optional minus
    sign, digits, a point, and exactly [dp] digits. *)
Definition fixed_point_text (dp : nat) (s : string) : Prop :=
  exists sgn ip frac : string,
    s = sgn +:+ ip +:+ "." +:+ frac /\
    (sgn = "" \/ sgn = "-") /\
    ip <> "" /\ all_digits ip = true /\
    all_digits frac = true /\ String.length frac = dp.

(** A float that is a number: neither a nan nor an infinity. *)
Definition is_number (x : float) : bool :=
  match Prim2SF x with
  | S754_nan | S754_infinity _ => false
  | _ => true
  end.

(** The character [replace(",", ".")] leaves in the place of [c]. *)
Definition comma_to_point (c : ascii) : ascii :=
  if Ascii.eqb c ","%char then "."%char else c.

(** The number a text of decimal digits denotes. *)
Fixpoint digits_value_go (acc : Z) (s : string) : Z :=
  match s with
  | String c s' => digits_value_go (10 * acc + (Z.of_nat (nat_of_ascii c) - 48)) s'
  | EmptyString => acc
  end.

Definition digits_value (s : string) : Z := digits_value_go 0 s.

(** [N] is the integer nearest to [num / den], the even one when two
    integers are equally near. *)
Definition nearest_even (num den N : Z) : Prop :=
  Z.abs (2 * (N * den - num)) <= den /\
  (Z.abs (2 * (N * den - num)) = den -> Z.even N = true).

(** The magnitude of a float that is a number, as a fraction [(num, den)],
    and its sign bit. *)
Definition magnitude (x : float) : Z * Z :=
  match Prim2SF x with
  | S754_finite _ m e =>
      if 0 <=? e then (Z.pos m * 2 ^ e, 1) else (Z.pos m, 2 ^ (- e))
  | _ => (0, 1)
  end.

Definition sign_bit (x : float) : bool :=
  match Prim2SF x with
  | S754_zero s | S754_infinity s | S754_finite s _ _ => s
  | S754_nan => false
  end.

(** Text that a cell takes and gives back as it is: no control character,
    no colon, at most 32767 characters, and not begun by "=", "{" or "#".
    (The libraries refuse, cut or turn other text into a formula, an error
    code or a link.) *)
Fixpoint plain_chars (s : string) : bool :=
  match s with
  | String c s' =>
      (32 <=? nat_of_ascii c)%nat && negb (Ascii.eqb c ":"%char) && plain_chars s'
  | EmptyString => true
  end.

Definition plain_text (s : string) : bool :=
  plain_chars s && (Z.of_nat (String.length s) <=? 32767) &&
  match s with
  | String c _ =>
      negb (Ascii.eqb c "="%char || Ascii.eqb c "{"%char || Ascii.eqb c "#"%char)
  | EmptyString => true
  end.

(** A value of a record that [format_value] turns into such text: nothing,
    plain text, a float, a truth value, or an int within the range of a
    float. *)
Definition plain_value (v : value) : bool :=
  match v with
  | VNone | VFloat _ | VBool _ => true
  | VStr s => plain_text s
  | VInt n => Z.abs n <? 2 ^ 1023
  | VOther _ => false
  end.

Definition plain_row (res : row) : bool :=
  forallb (fun key => plain_value (dict_get res key (VStr ""))) FIELDNAMES.

(** How often a character occurs in a text; the lines of a text are
    counted by its line feeds. *)
Fixpoint count_char (c : ascii) (s : string) : nat :=
  match s with
  | String a s' => ((if Ascii.eqb a c then 1 else 0) + count_char c s')%nat
  | EmptyString => O
  end.

(** ** Concrete inputs *)

Definition zero_weight_entries : entries :=
  {| entry_tire := "A"; entry_weight := "0"; entry_idle := "0.50 0.51 0.49";
     entry_load := "1.20 1.22 1.18"; entry_pressure := "2.5" |}.

Definition empty_app : RollingResistanceApp :=
  {| saved_rows := []; last_result := None;
     filename_xlsx := "/data/rolling_resistance_data.xlsx";
     filename_csv := "/data/rolling_resistance_data.csv"; labels := [] |}.

Definition empty_world : world := {| files := ∅; shown := [] |}.

Definition broken_world : world :=
  {| files := {[ "/data/rolling_resistance_data.xlsx" := Garbage;
                 "/data/rolling_resistance_data.csv" := Text "old" ]};
     shown := [] |}.

Definition data_cell (s : string) : cell :=
  {| cell_value := VStr s; cell_style := Some cell_format |}.

Definition header_cell (s : string) : cell :=
  {| cell_value := VStr s; cell_style := Some header_format |}.

(** A sheet with the header and one data row. *)
Definition one_row_sheet : worksheet :=
  {[ (1, 1)%nat := header_cell "Tire name / type";
     (1, 2)%nat := header_cell "Tire pressure [bar]";
     (1, 3)%nat := header_cell "C_rr";
     (2, 1)%nat := data_cell "A";
     (2, 2)%nat := data_cell "2.00";
     (2, 3)%nat := data_cell "0.080000" ]}.

(** A sheet whose data rows were all deleted: the header is left. *)
Definition header_only_sheet : worksheet :=
  {[ (1, 1)%nat := header_cell "Tire name / type";
     (1, 2)%nat := header_cell "Tire pressure [bar]";
     (1, 3)%nat := header_cell "C_rr" ]}.

Definition book (ws : worksheet) : file :=
  Xlsx {| wb_sheets := [("Data", ws)]; wb_active := 0 |}.

Definition saved_row : row :=
  {[ "Tire name / type" := VStr "B";
     "Tire pressure [bar]" := VStr "2.5";
     "C_rr" := VFloat 0.07%float ]}.

Definition app_with_saved_row : RollingResistanceApp :=
  {| saved_rows := [saved_row]; last_result := Some saved_row;
     filename_xlsx := "/data/rolling_resistance_data.xlsx";
     filename_csv := "/data/rolling_resistance_data.csv"; labels := [] |}.

Definition comma_pressure_row : row :=
  {[ "Tire name / type" := VStr "A";
     "Tire pressure [bar]" := VStr "2,5";
     "C_rr" := VStr "0.07" ]}.

Definition comma_coefficient_row : row :=
  {[ "Tire name / type" := VStr "A";
     "Tire pressure [bar]" := VStr "2.5";
     "C_rr" := VStr "0,07" ]}.

Definition stale_mirror_world : world :=
  {| files := {[ "/data/rolling_resistance_data.xlsx" := book one_row_sheet;
                 "/data/rolling_resistance_data.csv" := Text "stale" ]};
     shown := [] |}.

Definition header_only_world : world :=
  {| files := {[ "/data/rolling_resistance_data.xlsx" := book header_only_sheet ]};
     shown := [] |}.

Definition one_row_world : world :=
  {| files := {[ "/data/rolling_resistance_data.xlsx" := book one_row_sheet ]};
     shown := [] |}.

Definition crowded_disk : disk :=
  {[ "/data/rolling_resistance_data.xlsx" := Garbage;
     "/data/rolling_resistance_data (2).xlsx" := Garbage ]}.

(** A sheet whose only data row holds a tire name of two lines. *)
Definition line_break_sheet : worksheet :=
  {[ (1, 1)%nat := header_cell "Tire name / type";
     (1, 2)%nat := header_cell "Tire pressure [bar]";
     (1, 3)%nat := header_cell "C_rr";
     (2, 1)%nat := data_cell (String "A" (String LF "B"));
     (2, 2)%nat := data_cell "2.00";
     (2, 3)%nat := data_cell "0.080000" ]}.

Definition line_break_world : world :=
  {| files := {[ "/data/rolling_resistance_data.xlsx" := book line_break_sheet ]};
     shown := [] |}.

(** The plot scenario of the specification: two rows of tire "A", one of
    tire "B", and a row without a tire name. *)
Definition plot_scenario_rows : list row :=
  [ {[ "Tire name / type" := VStr "A"; "Tire pressure [bar]" := VStr "2.5";
       "C_rr" := VStr "0.07" ]};
    {[ "Tire name / type" := VStr "B"; "Tire pressure [bar]" := VStr "2.0";
       "C_rr" := VStr "0.09" ]};
    {[ "Tire name / type" := VStr "A"; "Tire pressure [bar]" := VStr "2.0";
       "C_rr" := VStr "0.08" ]};
    {[ "Tire name / type" := VStr "  "; "Tire pressure [bar]" := VStr "3,0";
       "C_rr" := VFloat 0.06%float ]} ].

Definition scenario_entries : entries :=
  {| entry_tire := " Conti, GP "; entry_weight := "2,0";
     entry_idle := "0.50 0,51 0.49"; entry_load := "1.20 1.22 1.18";
     entry_pressure := " 2,5" |}.

(** The form with "nan" among the idle currents. *)
Definition nan_entries : entries :=
  {| entry_tire := "A"; entry_weight := "2"; entry_idle := "0.50 nan";
     entry_load := "1.20 1.22 1.18"; entry_pressure := "2.5" |}.

(** ** Notions used in the statements about reading a sheet *)

(** The value read at a position: [None] where the sheet has no cell. *)
Definition sheet_value (ws : worksheet) (r c : nat) : value :=
  cell_value (ws_cell ws r c).

(** What the reading loop makes of row [r] of a grid of values that is [C]
    columns wide, and of the rows 2 to [R]. *)
Definition row_entry (vf : nat -> nat -> value) (C r : nat) : option row :=
  let vals := vf r <$> seq 1 C in
  if forallb is_none vals then None
  else Some (row_dict 0 (vf 1%nat <$> seq 1 C) vals ∅).

Definition rows_from (vf : nat -> nat -> value) (R C : nat) : list row :=
  omap (row_entry vf C) (seq 2 (R - 1)).

(** No cell of the sheet holds the empty string: so it is in a sheet read
    from a file that the program wrote. *)
Definition is_empty_text (v : value) : bool :=
  match v with VStr "" => true | _ => false end.

Definition no_empty_text (ws : worksheet) : bool :=
  forallb (fun kc => negb (is_empty_text (cell_value (snd kc)))) (map_to_list ws).



(** ** Notions used in the statements about the rows written *)

(** The 13 values of the row written for a result. *)
Definition stored_fields (res : row) : list value :=
  (fun key => stored (format_value key (dict_get res key (VStr "")))) <$> FIELDNAMES.

(** A result whose 13 formatted fields are all empty. *)
Definition blank_row (res : row) : bool := forallb is_none (stored_fields res).

(** What the reading loop makes of the row written for a result, by the
    export into a new workbook or by the helper that appends. *)
Definition read_back (res : row) : option row :=
  if blank_row res then None
  else Some (row_dict 0 (VStr <$> FIELDNAMES) (stored_fields res) ∅).

(** The sheet of [create_workbook]. *)
Definition created_sheet (rows : list row) : worksheet :=
  foldl (fun acc ir => xlsx_write_row (snd ir) (fst ir) acc)
        (foldl (fun acc cn => xlsx_write acc 0 (fst cn) (VStr (snd cn)) header_format)
               ∅ (zip (seq 0 (length FIELDNAMES)) FIELDNAMES))
        (zip (seq 1 (length rows)) rows).

(** A record that a successful calculation gives. *)
Definition calculated (res : row) : Prop :=
  exists (en : entries) (lbls : list (string * string)), calculate en = Ok (lbls, res).

(** The list and the last result hold records of calculations only. *)
Definition from_calculations (a : RollingResistanceApp) : Prop :=
  Forall calculated (saved_rows a) /\
  forall res : row, last_result a = Some res -> calculated res.


(** ** Notions used in the statements about the plot *)



(** * Properties *)

(** One step of a computation in the result monad, once its first part is
    known to return. *)
Ltac bind_ok := cbn [mbind result_bind].

(** ** The physics computation *)

Lemma speed_quotient :
  PyFloat.truediv (PyFloat.of_int rpm) 60%float = Ok (213 / 60)%float.
Proof. vm_compute. reflexivity. Qed.

Lemma of_int_V_supply : PyFloat.of_int V_supply = 12%float.
Proof. vm_compute. reflexivity. Qed.

Lemma l_reifen_nonzero : PrimFloat.eqb l_reifen 0%float = false.
Proof. vm_compute. reflexivity. Qed.

Lemma truediv_len_nonempty (x : float) (l : list float) :
  l <> [] -> PyFloat.truediv_len x (length l) = Ok (x / PyFloat.of_len (length l))%float.
Proof. destruct l as [|y l']; [congruence | reflexivity]. Qed.

Lemma truediv_ok (a b : float) :
  PrimFloat.eqb b 0%float = false -> PyFloat.truediv a b = Ok (a / b)%float.
Proof. intros H. unfold PyFloat.truediv. rewrite H. reflexivity. Qed.

Lemma truediv_zero (a b : float) :
  PrimFloat.eqb b 0%float = true -> PyFloat.truediv a b = Raise ZeroDivisionError.
Proof. intros H. unfold PyFloat.truediv. rewrite H. reflexivity. Qed.

(** Up to the last division [compute_result] cannot fail on lists that are
    not empty; what is left is the division by [m_eff * g * v]. *)
Lemma compute_result_unfold (idle load : list float) (m_hang : float) :
  idle <> [] -> load <> [] ->
  compute_result idle load m_hang =
    match PyFloat.truediv (12 * spec_mean load - 12 * spec_mean idle)%float
                          (spec_divisor m_hang) with
    | Ok _ => Ok (spec_record idle load m_hang)
    | Raise e => Raise e
    end.
Proof.
  intros Hi Hl. unfold compute_result.
  rewrite speed_quotient. bind_ok.
  rewrite (truediv_len_nonempty _ idle Hi). bind_ok.
  rewrite (truediv_len_nonempty _ load Hl). bind_ok.
  rewrite (truediv_ok _ l_reifen l_reifen_nonzero). bind_ok.
  rewrite of_int_V_supply.
  unfold spec_divisor, spec_m_eff, spec_speed, spec_record, spec_divisor,
    spec_m_eff, spec_speed, spec_mean, PyFloat.truediv, d, g, l_hang, l_reifen.
  destruct (PrimFloat.eqb _ 0%float); reflexivity.
Qed.

Lemma compute_result_empty_idle (load : list float) (m_hang : float) :
  compute_result [] load m_hang = Raise ZeroDivisionError.
Proof. unfold compute_result. rewrite speed_quotient. reflexivity. Qed.

Lemma compute_result_empty_load (idle : list float) (m_hang : float) :
  compute_result idle [] m_hang = Raise ZeroDivisionError.
Proof.
  destruct idle as [|x idle']; [apply compute_result_empty_idle|].
  unfold compute_result. rewrite speed_quotient. reflexivity.
Qed.

Lemma compute_result_zero_divisor (idle load : list float) (m_hang : float) :
  PrimFloat.eqb (spec_divisor m_hang) 0%float = true ->
  compute_result idle load m_hang = Raise ZeroDivisionError.
Proof.
  intros Hz.
  destruct idle as [|x idle']; [apply compute_result_empty_idle|].
  destruct load as [|y load']; [apply compute_result_empty_load|].
  rewrite compute_result_unfold by discriminate.
  rewrite (truediv_zero _ _ Hz). reflexivity.
Qed.

(** C1 (as amended).  For lists of currents that are not empty and a hanging
    mass whose divisor [m_eff * 9.81 * v] is not zero, [compute_result]
    returns exactly the record of the fixed algorithm: v = pi * 0.645 *
    (213 / 60), I0 and IL the means of the two lists, m_eff = m_hang * 0.875
    / 0.358, P0 = 12 * I0, PL = 12 * IL, P_rr = PL - P0 and C_rr = P_rr /
    (m_eff * 9.81 * v).  For idle currents 0.50, 0.51, 0.49, load currents
    1.20, 1.22, 1.18 and a hanging mass of 2.0 the rounded values are
    v = 7.1935, I0 = 0.500, IL = 1.200, m_eff = 4.8883, P0 = 6.000,
    PL = 14.400, P_rr = 8.400 and C_rr = 0.02435. *)
Theorem compute_result_derived :
  (forall (idle load : list float) (m_hang : float),
      idle <> [] -> load <> [] ->
      PrimFloat.eqb (spec_divisor m_hang) 0%float = false ->
      compute_result idle load m_hang = Ok (spec_record idle load m_hang)) /\
  (let r := compute_result scenario_idle scenario_load scenario_m_hang in
   rounded 4 "Speed [m/s]" r = Some "7.1935" /\
   rounded 3 "Mean idle current [A]" r = Some "0.500" /\
   rounded 3 "Mean load current [A]" r = Some "1.200" /\
   rounded 4 "Effective weight on tire [kg]" r = Some "4.8883" /\
   rounded 3 "P_0 [W]" r = Some "6.000" /\
   rounded 3 "P_load [W]" r = Some "14.400" /\
   rounded 3 "P_rr [W]" r = Some "8.400" /\
   rounded 5 "C_rr" r = Some "0.02435").
Proof.
  split.
  - intros idle load m_hang Hi Hl Hd.
    rewrite compute_result_unfold by assumption.
    rewrite (truediv_ok _ _ Hd). reflexivity.
  - vm_compute. repeat split.
Qed.

Lemma compute_result_derived_witness :
  compute_result scenario_idle scenario_load scenario_m_hang
  = Ok (spec_record scenario_idle scenario_load scenario_m_hang).
Proof.
  apply (proj1 compute_result_derived scenario_idle scenario_load scenario_m_hang).
  - discriminate.
  - discriminate.
  - vm_compute. reflexivity.
Defined.

(** C1, as stated, fails on the code: in the scenario the speed, the
    effective mass and the coefficient are not the 2.2926, 4.8955 and
    0.07656 the claim gives, and for a hanging mass of 0 no record is
    returned at all. *)
Lemma compute_result_scenario_differs :
  (let r := compute_result scenario_idle scenario_load scenario_m_hang in
   rounded 4 "Speed [m/s]" r = Some "7.1935" /\
   rounded 4 "Speed [m/s]" r <> Some "2.2926" /\
   rounded 4 "Effective weight on tire [kg]" r = Some "4.8883" /\
   rounded 4 "Effective weight on tire [kg]" r <> Some "4.8955" /\
   rounded 5 "C_rr" r = Some "0.02435" /\
   rounded 5 "C_rr" r <> Some "0.07656") /\
  compute_result scenario_idle scenario_load 0%float = Raise ZeroDivisionError.
Proof.
  split.
  - vm_compute. repeat split; discriminate.
  - vm_compute. reflexivity.
Qed.

(** C8.  When the divisor [m_eff * g * v] is zero, [compute_result] raises
    [ZeroDivisionError] instead of returning a record with an infinity, and
    [on_calculate], which catches [ValueError] only, lets it through to its
    caller with the application and the world unchanged. *)
Theorem division_by_zero_propagates :
  (forall (idle load : list float) (m_hang : float),
      PrimFloat.eqb (spec_divisor m_hang) 0%float = true ->
      compute_result idle load m_hang = Raise ZeroDivisionError) /\
  (forall (en : entries) (a : RollingResistanceApp) (w : world)
          (idle load : list float) (m_hang : float),
      parse_float_list (entry_idle en) = Ok idle ->
      parse_float_list (entry_load en) = Ok load ->
      parse_weight (entry_weight en) = Ok m_hang ->
      PrimFloat.eqb (spec_divisor m_hang) 0%float = true ->
      on_calculate en a w = Uncaught ZeroDivisionError a w).
Proof.
  split.
  - intros idle load m_hang. apply compute_result_zero_divisor.
  - intros en a w idle load m_hang Hi Hl Hw Hz.
    unfold on_calculate, calculate.
    rewrite Hi, Hl, Hw. bind_ok.
    rewrite (compute_result_zero_divisor idle load m_hang Hz). reflexivity.
Qed.

Lemma division_by_zero_propagates_witness :
  on_calculate zero_weight_entries empty_app empty_world
  = Uncaught ZeroDivisionError empty_app empty_world.
Proof.
  apply (proj2 division_by_zero_propagates zero_weight_entries empty_app empty_world
           scenario_idle scenario_load 0%float);
    vm_compute; reflexivity.
Defined.

(** ** The formatter *)

Lemma append_cons (c : ascii) (s t : string) : String c s +:+ t = String c (s +:+ t).
Proof. reflexivity. Qed.

Lemma length_append (s t : string) :
  String.length (s +:+ t) = (String.length s + String.length t)%nat.
Proof.
  induction s as [|c s IH]; [reflexivity|].
  rewrite append_cons. cbn. by rewrite IH.
Qed.

Lemma all_digits_append (s t : string) :
  all_digits (s +:+ t) = all_digits s && all_digits t.
Proof.
  induction s as [|c s IH]; [reflexivity|].
  rewrite append_cons. cbn. rewrite IH. by rewrite andb_assoc.
Qed.

Lemma replace_comma_append (s t : string) :
  PyStr.replace_comma (s +:+ t) = PyStr.replace_comma s +:+ PyStr.replace_comma t.
Proof.
  induction s as [|c s IH]; [reflexivity|].
  rewrite append_cons. cbn. rewrite IH. reflexivity.
Qed.

Lemma is_digit_not_comma (c : ascii) :
  is_digit c = true -> Ascii.eqb c ","%char = false.
Proof.
  intros H. destruct (Ascii.eqb_spec c ","%char) as [->|]; [|reflexivity].
  vm_compute in H. discriminate.
Qed.

Lemma replace_comma_digits (s : string) :
  all_digits s = true -> PyStr.replace_comma s = s.
Proof.
  induction s as [|c s IH]; [reflexivity|].
  cbn. intros [Hc Hs]%andb_prop.
  rewrite (is_digit_not_comma c Hc), IH by assumption. reflexivity.
Qed.

Lemma digit_char_is_digit (n : Z) :
  0 <= n < 10 -> is_digit (PyFloat.digit_char n) = true.
Proof.
  intros H. unfold PyFloat.digit_char.
  assert (Z.to_nat n < 10)%nat as Hk by lia.
  revert Hk. generalize (Z.to_nat n). intros k Hk.
  do 10 (destruct k as [|k]; [reflexivity|]). lia.
Qed.

Lemma fixed_digits_digits (k : nat) (n : Z) :
  all_digits (PyFloat.fixed_digits k n) = true.
Proof.
  revert n. induction k as [|k IH]; intros n; [reflexivity|].
  cbn [PyFloat.fixed_digits]. rewrite all_digits_append, IH. cbn.
  rewrite digit_char_is_digit; [reflexivity|].
  apply Z.mod_pos_bound. lia.
Qed.

Lemma fixed_digits_length (k : nat) (n : Z) :
  String.length (PyFloat.fixed_digits k n) = k.
Proof.
  revert n. induction k as [|k IH]; intros n; [reflexivity|].
  cbn [PyFloat.fixed_digits]. rewrite length_append, IH. cbn. lia.
Qed.

Lemma pretty_N_char_is_digit (x : N) : is_digit (pretty_N_char x) = true.
Proof.
  unfold pretty_N_char.
  repeat (match goal with |- context [match ?y with _ => _ end] => destruct y end;
          try reflexivity).
Qed.

Lemma pretty_N_go_digits (x : N) (s : string) :
  all_digits s = true -> s <> "" ->
  all_digits (pretty_N_go x s) = true /\ pretty_N_go x s <> "".
Proof.
  revert s. induction (N.lt_wf_0 x) as [x _ IH]. intros s Hs Hne.
  destruct (decide (0 < x)%N) as [Hx|Hx].
  - rewrite pretty_N_go_step by assumption.
    apply IH.
    + apply N.div_lt; lia.
    + cbn. by rewrite pretty_N_char_is_digit, Hs.
    + discriminate.
  - assert (x = 0%N) as -> by lia. by rewrite pretty_N_go_0.
Qed.

Lemma pretty_N_digits (x : N) :
  all_digits (pretty x) = true /\ pretty x <> "".
Proof.
  unfold pretty, pretty_N. case_decide as Hx; [split; [reflexivity|discriminate]|].
  assert (0 < x)%N as Hpos by lia.
  rewrite pretty_N_go_step by assumption.
  apply pretty_N_go_digits.
  - cbn. by rewrite pretty_N_char_is_digit.
  - discriminate.
Qed.

Lemma replace_comma_sign (s : bool) :
  PyStr.replace_comma (PyFloat.sign_str s) = PyFloat.sign_str s.
Proof. by destruct s. Qed.

Lemma replace_comma_render (dp : nat) (q : Z) :
  PyStr.replace_comma (PyFloat.render dp q) = PyFloat.render dp q.
Proof.
  unfold PyFloat.render. rewrite replace_comma_append.
  rewrite (replace_comma_digits (pretty _)) by apply pretty_N_digits.
  destruct dp as [|dp]; [reflexivity|].
  rewrite replace_comma_append, (replace_comma_digits (PyFloat.fixed_digits _ _))
    by apply fixed_digits_digits.
  reflexivity.
Qed.

(** The text of a formatted float holds no comma. *)
Lemma replace_comma_format_f (dp : nat) (x : float) :
  PyStr.replace_comma (PyFloat.format_f dp x) = PyFloat.format_f dp x.
Proof.
  unfold PyFloat.format_f.
  destruct (Prim2SF x) as [s|s| |s m e];
    rewrite ?replace_comma_append, ?replace_comma_sign, ?replace_comma_render;
    reflexivity.
Qed.

Lemma render_fixed_point (dp : nat) (q : Z) (s : bool) :
  dp <> O -> fixed_point_text dp (PyFloat.sign_str s +:+ PyFloat.render dp q).
Proof.
  intros Hdp. destruct dp as [|dp]; [congruence|].
  exists (PyFloat.sign_str s), (pretty (Z.to_N (q / 10 ^ Z.of_nat (S dp)))),
    (PyFloat.fixed_digits (S dp) (q mod 10 ^ Z.of_nat (S dp))).
  split; [reflexivity|].
  split; [destruct s; auto|].
  destruct (pretty_N_digits (Z.to_N (q / 10 ^ Z.of_nat (S dp)))) as [Hd Hne].
  repeat split; try assumption.
  - apply fixed_digits_digits.
  - apply fixed_digits_length.
Qed.

Lemma format_f_fixed_point (dp : nat) (x : float) :
  dp <> O -> is_number x = true -> fixed_point_text dp (PyFloat.format_f dp x).
Proof.
  intros Hdp. unfold is_number, PyFloat.format_f.
  destruct (Prim2SF x) as [s|s| |s m e]; try discriminate; intros _;
    by apply render_fixed_point.
Qed.

(** The table of [format_value] is the one of the specification. *)
Lemma decimal_places_spec (key : string) :
  default 3%nat (decimal_places !! key) = spec_places key.
Proof.
  unfold decimal_places, spec_places. cbn [list_to_map foldr uncurry fst snd].
  repeat (rewrite lookup_insert; case_decide;
          [subst key; vm_compute; reflexivity|]).
  rewrite lookup_empty. cbn.
  rewrite !bool_decide_eq_false_2; [reflexivity | congruence | |].
  - rewrite !list_elem_of_In. cbn. intuition congruence.
  - rewrite !list_elem_of_In. cbn. intuition congruence.
Qed.

Lemma spec_places_positive (key : string) : spec_places key <> O.
Proof. unfold spec_places. repeat case_bool_decide; discriminate. Qed.

Lemma format_number_spec (key : string) (x : float) :
  format_number key x = VStr (PyFloat.format_f (spec_places key) x).
Proof.
  unfold format_number. by rewrite decimal_places_spec, replace_comma_format_f.
Qed.

(** *** What the formatter's texts denote *)

Lemma replace_comma_length (s : string) :
  String.length (PyStr.replace_comma s) = String.length s.
Proof. induction s as [|c s IH]; [reflexivity|]. cbn. by rewrite IH. Qed.

Lemma replace_comma_get (s : string) (i : nat) :
  String.get i (PyStr.replace_comma s) = comma_to_point <$> String.get i s.
Proof.
  revert i. induction s as [|c s IH]; intros i; [reflexivity|].
  destruct i as [|i]; [reflexivity|]. cbn [PyStr.replace_comma String.get]. apply IH.
Qed.

Lemma digits_value_go_shift (s : string) (acc : Z) :
  digits_value_go acc s = acc * 10 ^ Z.of_nat (String.length s) + digits_value_go 0 s.
Proof.
  revert acc. induction s as [|c s IH]; intros acc.
  - cbn. lia.
  - cbn [digits_value_go String.length]. rewrite IH, (IH (10 * 0 + _)).
    rewrite Nat2Z.inj_succ, Z.pow_succ_r by lia. ring.
Qed.

Lemma digits_value_append (s t : string) :
  digits_value (s +:+ t)
  = digits_value s * 10 ^ Z.of_nat (String.length t) + digits_value t.
Proof.
  assert (forall acc, digits_value_go acc (s +:+ t)
                      = digits_value_go (digits_value_go acc s) t) as Hgo.
  { induction s as [|c s IH]; intros acc; [reflexivity|].
    rewrite append_cons. cbn [digits_value_go]. apply IH. }
  unfold digits_value. rewrite Hgo. apply digits_value_go_shift.
Qed.

Lemma digit_char_value (n : Z) :
  0 <= n < 10 -> Z.of_nat (nat_of_ascii (PyFloat.digit_char n)) - 48 = n.
Proof.
  intros H. unfold PyFloat.digit_char.
  rewrite <- (Z2Nat.id n) at 2 by lia.
  assert (Z.to_nat n < 10)%nat as Hk by lia.
  revert Hk. generalize (Z.to_nat n). intros k Hk.
  do 10 (destruct k as [|k]; [reflexivity|]). lia.
Qed.

Lemma digits_value_fixed_digits (k : nat) (n : Z) :
  0 <= n -> digits_value (PyFloat.fixed_digits k n) = n mod 10 ^ Z.of_nat k.
Proof.
  revert n. induction k as [|k IH]; intros n Hn.
  - cbn. by rewrite Z.mod_1_r.
  - cbn [PyFloat.fixed_digits]. rewrite digits_value_append, IH by (apply Z.div_pos; lia).
    unfold digits_value at 1. cbn [digits_value_go String.length].
    rewrite digit_char_value by (apply Z.mod_pos_bound; lia).
    change (10 ^ Z.of_nat 1) with 10.
    rewrite (Nat2Z.inj_succ k), Z.pow_succ_r by lia.
    assert (0 < 10 ^ Z.of_nat k) by (apply Z.pow_pos_nonneg; lia).
    rewrite (Z.rem_mul_r n 10 (10 ^ Z.of_nat k)) by lia. lia.
Qed.

Lemma pretty_N_char_value (x : N) :
  (x < 10)%N -> Z.of_nat (nat_of_ascii (pretty_N_char x)) - 48 = Z.of_N x.
Proof.
  intros Hx. rewrite <- (N2Nat.id x).
  assert (N.to_nat x < 10)%nat as Hk by lia.
  revert Hk. generalize (N.to_nat x). intros k Hk.
  do 10 (destruct k as [|k]; [reflexivity|]). lia.
Qed.

Lemma digits_value_pretty_N_go (x : N) (s : string) :
  digits_value (pretty_N_go x s)
  = Z.of_N x * 10 ^ Z.of_nat (String.length s) + digits_value s.
Proof.
  revert s. induction (N.lt_wf_0 x) as [x _ IH]. intros s.
  destruct (decide (0 < x)%N) as [Hx|Hx].
  - rewrite pretty_N_go_step by assumption.
    rewrite IH by (apply N.div_lt; lia).
    cbn [String.length]. unfold digits_value at 1. cbn [digits_value_go].
    rewrite digits_value_go_shift.
    rewrite pretty_N_char_value by (apply N.mod_lt; lia).
    rewrite Nat2Z.inj_succ, Z.pow_succ_r by lia.
    fold (digits_value s).
    rewrite N2Z.inj_div, N2Z.inj_mod.
    pose proof (Z.div_mod (Z.of_N x) 10 ltac:(lia)) as Hdm.
    change (Z.of_N 10) with 10. nia.
  - assert (x = 0%N) as -> by lia. rewrite pretty_N_go_0. cbn. lia.
Qed.

Lemma digits_value_pretty (x : N) : digits_value (pretty x) = Z.of_N x.
Proof.
  unfold pretty, pretty_N. case_decide as Hx; [by subst x|].
  rewrite digits_value_pretty_N_go. cbn. lia.
Qed.

Lemma pretty_N_char_not_zero (x : N) :
  (0 < x < 10)%N -> pretty_N_char x <> "0"%char.
Proof.
  intros Hx. rewrite <- (N2Nat.id x).
  assert (0 < N.to_nat x < 10)%nat as Hk by lia.
  revert Hk. generalize (N.to_nat x). intros k Hk.
  destruct k as [|k]; [lia|].
  do 9 (destruct k as [|k]; [discriminate|]). lia.
Qed.

Lemma pretty_N_go_head (x : N) (s : string) :
  (0 < x)%N ->
  exists (c : ascii) (r : string), pretty_N_go x s = String c r /\ c <> "0"%char.
Proof.
  revert s. induction (N.lt_wf_0 x) as [x _ IH]. intros s Hx.
  rewrite pretty_N_go_step by assumption.
  destruct (decide (0 < x `div` 10)%N) as [Hq|Hq].
  - apply IH; [apply N.div_lt; lia | assumption].
  - apply N.nlt_ge, N.le_0_r in Hq.
    pose proof (N.div_mod x 10 ltac:(lia)) as Hdm. rewrite Hq in Hdm |- *.
    rewrite pretty_N_go_0.
    eexists _, _. split; [reflexivity|].
    apply pretty_N_char_not_zero. split; [lia|]. apply N.mod_lt. lia.
Qed.

(** A decimal numeral as [pretty] prints it: "0", or digits not begun by a
    zero. *)
Lemma pretty_N_canonical (x : N) :
  pretty x = "0" \/ exists (c : ascii) (r : string), pretty x = String c r /\ c <> "0"%char.
Proof.
  unfold pretty, pretty_N. case_decide as Hx; [by left|].
  right. apply pretty_N_go_head. lia.
Qed.

Lemma round_half_even_nearest (num den : Z) :
  0 < den -> nearest_even num den (PyFloat.round_half_even num den).
Proof.
  intros Hden. unfold nearest_even, PyFloat.round_half_even.
  pose proof (Z.div_mod num den ltac:(lia)) as Hdm.
  pose proof (Z.mod_pos_bound num den Hden) as Hr.
  destruct (Z.compare_spec (2 * (num mod den)) den) as [Heq|Hlt|Hgt].
  - destruct (Z.even (num / den)) eqn:Heven.
    + split; [lia | by intros _].
    + split; [lia|]. intros _. rewrite Z.even_add, Heven. reflexivity.
  - split; lia.
  - split; lia.
Qed.

Lemma nearest_even_exact (num : Z) : nearest_even num 1 num.
Proof. unfold nearest_even. split; lia. Qed.

(** The text of the digits of [render] denotes the number rendered. *)
Lemma render_value (dp : nat) (q : Z) :
  0 <= q -> dp <> O ->
  exists ip frac : string,
    PyFloat.render dp q = ip +:+ "." +:+ frac /\
    (ip = "0" \/ exists c r, ip = String c r /\ c <> "0"%char) /\
    all_digits ip = true /\
    all_digits frac = true /\ String.length frac = dp /\
    digits_value (ip +:+ frac) = q.
Proof.
  intros Hq Hdp. destruct dp as [|dp]; [congruence|].
  exists (pretty (Z.to_N (q / 10 ^ Z.of_nat (S dp)))),
    (PyFloat.fixed_digits (S dp) (q mod 10 ^ Z.of_nat (S dp))).
  destruct (pretty_N_digits (Z.to_N (q / 10 ^ Z.of_nat (S dp)))) as [Hd Hne].
  assert (0 < 10 ^ Z.of_nat (S dp)) as Hpow by (apply Z.pow_pos_nonneg; lia).
  pose proof (Z.mod_pos_bound q _ Hpow) as Hr.
  split_and!; try assumption; try reflexivity.
  - apply pretty_N_canonical.
  - apply fixed_digits_digits.
  - apply fixed_digits_length.
  - rewrite digits_value_append, digits_value_pretty, fixed_digits_length.
    rewrite digits_value_fixed_digits by lia.
    rewrite Z.mod_mod by lia.
    rewrite Z2N.id by (apply Z.div_pos; lia).
    pose proof (Z.div_mod q (10 ^ Z.of_nat (S dp)) ltac:(lia)) as Hdm. lia.
Qed.

Lemma scaled_nonneg (m : positive) (e : Z) (dp : nat) : 0 <= PyFloat.scaled m e dp.
Proof.
  unfold PyFloat.scaled. destruct (Z.leb_spec 0 e) as [He|He].
  - assert (0 <= 2 ^ e) by (apply Z.pow_nonneg; lia).
    assert (0 <= 10 ^ Z.of_nat dp) by (apply Z.pow_nonneg; lia). nia.
  - assert (0 < 2 ^ (- e)) as Hden by (apply Z.pow_pos_nonneg; lia).
    assert (0 <= 10 ^ Z.of_nat dp) by (apply Z.pow_nonneg; lia).
    unfold PyFloat.round_half_even.
    assert (0 <= Z.pos m * 10 ^ Z.of_nat dp / 2 ^ (- e)) by (apply Z.div_pos; nia).
    destruct (_ ?= _); [destruct (Z.even _)| |]; lia.
Qed.

(** The fixed-point text of a float that is a number: its sign, digits, a
    point and [dp] digits; the digits denote the magnitude times [10^dp],
    rounded to the nearest integer, to the even one at a tie. *)
Lemma format_f_number (dp : nat) (x : float) :
  dp <> O -> is_number x = true ->
  exists ip frac : string,
    PyFloat.format_f dp x = (if sign_bit x then "-" else "") +:+ ip +:+ "." +:+ frac /\
    (ip = "0" \/ exists c r, ip = String c r /\ c <> "0"%char) /\
    all_digits ip = true /\
    all_digits frac = true /\ String.length frac = dp /\
    nearest_even (fst (magnitude x) * 10 ^ Z.of_nat dp) (snd (magnitude x))
                 (digits_value (ip +:+ frac)).
Proof.
  intros Hdp. unfold is_number, PyFloat.format_f, sign_bit, magnitude.
  destruct (Prim2SF x) as [s|s| |s m e]; try discriminate; intros _.
  - destruct (render_value dp 0 ltac:(lia) Hdp) as (ip & frac & -> & ? & ? & ? & ? & Hq).
    exists ip, frac. split_and!; try assumption; [by destruct s|].
    rewrite Hq. cbn [fst snd]. apply nearest_even_exact.
  - destruct (render_value dp (PyFloat.scaled m e dp) (scaled_nonneg m e dp) Hdp)
      as (ip & frac & -> & ? & ? & ? & ? & Hq).
    exists ip, frac. split_and!; try assumption; [by destruct s|].
    rewrite Hq. unfold PyFloat.scaled. destruct (Z.leb_spec 0 e) as [He|He]; cbn [fst snd].
    + apply nearest_even_exact.
    + apply round_half_even_nearest. apply Z.pow_pos_nonneg; lia.
Qed.

(** C5 (as amended).  [format_value] maps an absent or empty value to the
    empty string; a string to the string of the same length that holds a
    point wherever the string holds a comma and the same character
    elsewhere, whatever the field; and a number to text in fixed-point
    form: a minus sign when its sign bit is set, digits (not begun by a
    zero, or the one digit 0), a point and digits, 3 of them for the mean currents, the speed and the two weights,
    2 for P_0, P_load, P_rr and the tire pressure, 6 for C_rr and 3 for any
    other field, the digits being those of the number times 10^places
    rounded to the nearest integer (to the even one at a tie).  An int
    within the range of a float and a truth value are formatted as the
    float they convert to.  An infinity or a nan, which are numeric values
    too, give "inf", "-inf" or "nan". *)
Theorem format_value_contract (key : string) :
  format_value key VNone = VStr "" /\
  format_value key (VStr "") = VStr "" /\
  (forall s : string,
      exists t : string,
        format_value key (VStr s) = VStr t /\
        String.length t = String.length s /\
        forall i : nat, String.get i t = comma_to_point <$> String.get i s) /\
  (forall x : float,
      is_number x = true ->
      exists ip frac : string,
        format_value key (VFloat x)
        = VStr ((if sign_bit x then "-" else "") +:+ ip +:+ "." +:+ frac) /\
        (ip = "0" \/ exists c r, ip = String c r /\ c <> "0"%char) /\
        all_digits ip = true /\
        all_digits frac = true /\ String.length frac = spec_places key /\
        nearest_even (fst (magnitude x) * 10 ^ Z.of_nat (spec_places key))
                     (snd (magnitude x)) (digits_value (ip +:+ frac))) /\
  (forall x : float,
      is_number x = false ->
      format_value key (VFloat x)
      = VStr (match Prim2SF x with
              | S754_infinity s => if s then "-inf" else "inf"
              | _ => "nan"
              end)) /\
  (forall n : Z,
      Z.abs n < 2 ^ 1023 ->
      format_value key (VInt n) = format_value key (VFloat (PyFloat.of_int n))) /\
  (forall b : bool,
      format_value key (VBool b)
      = format_value key (VFloat (if b then 1%float else 0%float))).
Proof.
  split; [reflexivity|]. split; [reflexivity|]. split; [|split; [|split; [|split]]].
  - intros s. exists (PyStr.replace_comma s).
    split; [by destruct s|]. split; [apply replace_comma_length | apply replace_comma_get].
  - intros x Hx.
    destruct (format_f_number (spec_places key) x (spec_places_positive key) Hx)
      as (ip & frac & Htext & Hrest).
    exists ip, frac. split; [|exact Hrest].
    change (format_value key (VFloat x)) with (format_number key x).
    by rewrite format_number_spec, Htext.
  - intros x Hx. change (format_value key (VFloat x)) with (format_number key x).
    rewrite format_number_spec. f_equal. revert Hx.
    unfold is_number, PyFloat.format_f.
    destruct (Prim2SF x) as [s|s| |s m e]; try discriminate; intros _;
      [by destruct s | reflexivity].
  - intros n _. reflexivity.
  - intros b. reflexivity.
Qed.

Lemma format_value_contract_witness :
  (exists ip frac : string,
      format_value "C_rr" (VFloat 0.024351028908057584%float)
      = VStr ("" +:+ ip +:+ "." +:+ frac) /\
      (ip = "0" \/ exists c r, ip = String c r /\ c <> "0"%char) /\
      all_digits ip = true /\
      all_digits frac = true /\ String.length frac = 6%nat /\
      nearest_even (fst (magnitude 0.024351028908057584%float) * 10 ^ 6)
                   (snd (magnitude 0.024351028908057584%float))
                   (digits_value (ip +:+ frac))) /\
  format_value "C_rr" (VFloat 0.024351028908057584%float) = VStr "0.024351" /\
  format_value "P_0 [W]" (VFloat 0.125%float) = VStr "0.12" /\
  format_value "P_0 [W]" (VFloat 0.375%float) = VStr "0.38" /\
  format_value "P_rr [W]" (VFloat (-8.4049)%float) = VStr "-8.40" /\
  format_value "Speed [m/s]" (VInt 7) = VStr "7.000" /\
  format_value "Anything" (VBool true) = VStr "1.000" /\
  format_value "Tire name / type" (VStr "Conti, GP 1,5") = VStr "Conti. GP 1.5".
Proof.
  split; [|repeat split; vm_compute; reflexivity].
  apply (proj1 (proj2 (proj2 (proj2 (format_value_contract "C_rr"))))
           0.024351028908057584%float).
  vm_compute. reflexivity.
Defined.

(** C5, as stated, fails on the code: a numeric value that is an infinity
    or a nan is not given in fixed-point form, and such a value is reached
    from the form, by "nan" among the idle currents. *)
Lemma format_value_not_a_number :
  format_value "C_rr" (VFloat PrimFloat.nan) = VStr "nan" /\
  format_value "P_0 [W]" (VFloat PrimFloat.infinity) = VStr "inf" /\
  format_value "P_0 [W]" (VFloat PrimFloat.neg_infinity) = VStr "-inf" /\
  match calculate nan_entries with
  | Ok (lbls, res) =>
      Some (lbls !! 1%nat,
            format_value "Mean idle current [A]"
              (dict_get res "Mean idle current [A]" (VStr "")))
  | Raise _ => None
  end = Some (Some ("label_I_idle_val", "nan"), VStr "nan").
Proof. repeat split; vm_compute; reflexivity. Qed.

(** ** Saving without a result *)

(** C10.  When there is no last result, [on_save_to_list] reports an error
    and returns with the saved list and the files on disk as they were, and
    the helper that appends to the spreadsheet does nothing. *)
Theorem save_without_result (rows : list row) (fx fc : string)
    (lbls : list (string * string)) (w : world) :
  let a := {| saved_rows := rows; last_result := None; filename_xlsx := fx;
              filename_csv := fc; labels := lbls |} in
  on_save_to_list a w = Returned a (show ErrCalculateFirst w) /\
  files (show ErrCalculateFirst w) = files w /\
  shown (show ErrCalculateFirst w) = (shown w ++ [ErrCalculateFirst])%list /\
  _append_last_result_to_excel_if_exists a w = w.
Proof. repeat split. Qed.

(** ** Exporting *)

Lemma read_rows_created (fs : disk) (path : string) (rows : list row) :
  is_ok (read_rows (<[path := Xlsx (create_workbook rows)]> fs) path) = true.
Proof.
  unfold read_rows, load_workbook. rewrite lookup_insert_eq. reflexivity.
Qed.

Lemma ensure_workbook_failed_read (a : RollingResistanceApp) (fs fs1 : disk) (e : exn) :
  ensure_workbook a fs = Some fs1 ->
  read_rows fs1 (filename_xlsx a) = Raise e ->
  fs1 = fs.
Proof.
  unfold ensure_workbook. intros Hens Hread.
  destruct (negb (path_exists fs (filename_xlsx a))); [|congruence].
  destruct (saved_rows a) as [|r rs]; [discriminate|].
  injection Hens as <-.
  pose proof (read_rows_created fs (filename_xlsx a) (r :: rs)) as Hok.
  rewrite Hread in Hok. discriminate.
Qed.

(** C7.  When the read of the spreadsheet fails during the export, the
    operation reports the error and returns before the CSV file is opened:
    the files on disk, the mirror among them, are as they were. *)
Theorem failed_read_keeps_mirror (a : RollingResistanceApp) (w : world)
    (fs1 : disk) (e : exn) :
  ensure_workbook a (files w) = Some fs1 ->
  read_rows fs1 (filename_xlsx a) = Raise e ->
  on_go_to_excel a w = Returned a (show (ErrReadExcel e) w) /\
  files (show (ErrReadExcel e) w) = files w /\
  files (show (ErrReadExcel e) w) !! filename_csv a = files w !! filename_csv a.
Proof.
  intros Hens Hread.
  pose proof (ensure_workbook_failed_read a (files w) fs1 e Hens Hread) as ->.
  unfold on_go_to_excel. rewrite Hens, Hread.
  repeat split.
Qed.

Lemma failed_read_keeps_mirror_witness :
  on_go_to_excel empty_app broken_world
  = Returned empty_app (show (ErrReadExcel InvalidFile) broken_world) /\
  files (show (ErrReadExcel InvalidFile) broken_world) = files broken_world /\
  files (show (ErrReadExcel InvalidFile) broken_world) !! filename_csv empty_app
  = files broken_world !! filename_csv empty_app.
Proof.
  apply (failed_read_keeps_mirror empty_app broken_world (files broken_world)).
  - reflexivity.
  - reflexivity.
Defined.

(** ** The rows that are plotted *)

(** C2 (as amended).  When the spreadsheet is on disk, can be read and holds
    at least one data row that is not empty, the rows that are plotted are
    exactly those rows, whatever the saved list holds; the saved list is
    consulted when no spreadsheet is on disk or when the spreadsheet holds
    no data row that is not empty; a spreadsheet that cannot be read ends
    the operation. *)
Theorem plot_rows_source (a : RollingResistanceApp) (fs : disk) :
  (forall rows : list row,
      path_exists fs (filename_xlsx a) = true ->
      read_rows fs (filename_xlsx a) = Ok rows ->
      rows <> [] ->
      plot_rows a fs = PlotRows rows) /\
  (path_exists fs (filename_xlsx a) = false \/
   read_rows fs (filename_xlsx a) = Ok [] ->
   plot_rows a fs =
     match saved_rows a with
     | [] => PlotNoData
     | _ => PlotRows (saved_rows a)
     end) /\
  (forall e : exn,
      path_exists fs (filename_xlsx a) = true ->
      read_rows fs (filename_xlsx a) = Raise e ->
      plot_rows a fs = PlotReadError e).
Proof.
  unfold plot_rows. repeat split.
  - intros rows -> -> Hne. destruct rows; [congruence | reflexivity].
  - intros [-> | Hread]; [reflexivity|].
    rewrite Hread. destruct (path_exists fs (filename_xlsx a)); reflexivity.
  - intros e -> ->. reflexivity.
Qed.

Lemma plot_rows_source_witness :
  plot_rows app_with_saved_row (files one_row_world)
  = PlotRows [ {[ "Tire name / type" := VStr "A";
                  "Tire pressure [bar]" := VStr "2.00";
                  "C_rr" := VStr "0.080000" ]} ].
Proof.
  apply (proj1 (plot_rows_source app_with_saved_row (files one_row_world))).
  - reflexivity.
  - reflexivity.
  - discriminate.
Defined.

(** C2, as stated, fails on the code: with the spreadsheet on disk but
    without data rows, the rows that are plotted are those of the saved
    list, not the (empty) row set of the spreadsheet. *)
Lemma plot_rows_falls_back_to_list :
  path_exists (files header_only_world) (filename_xlsx app_with_saved_row) = true /\
  read_rows (files header_only_world) (filename_xlsx app_with_saved_row) = Ok [] /\
  plot_rows app_with_saved_row (files header_only_world) = PlotRows [saved_row] /\
  on_plot_pressure_vs_crr app_with_saved_row header_only_world
  = Returned app_with_saved_row
      (show (ShowPlot [ {| curve_label := "B"; curve_color := "steelblue";
                           curve_points := [(2.5, 0.07)]%float |} ])
         header_only_world).
Proof. repeat split. Qed.

(** ** The points of the plot *)

Lemma float_of_string_raises (s : string) (e : exn) :
  PyConv.float_of_string s = Raise e -> e = ValueError.
Proof.
  unfold PyConv.float_of_string.
  destruct (PyConv.split_sign (PyStr.strip s)) as [neg body].
  case_bool_decide; [discriminate|].
  case_bool_decide; [discriminate|].
  destruct (PyConv.number body) as [[[m frac] r]|]; [|congruence].
  destruct (PyConv.exponent r) as [[ex [|c rest]]|]; congruence.
Qed.

(** C3 (as amended).  For every row, the tire pressure is read as a decimal
    from its text with every comma replaced by a point, so either separator
    is accepted; the coefficient is handed to [float] as it is, so a
    coefficient that is text needs a point.  A row is left out of the
    curves, without an error, exactly when its pressure text is empty, its
    coefficient is absent, or the pressure or the coefficient fails to
    parse with [ValueError]; the loop then goes on with the next row. *)
Theorem row_point_filter (res : row) :
  let pressure_text :=
    PyStr.replace_comma (py_str (dict_get res "Tire pressure [bar]" (VStr ""))) in
  let crr_value := dict_get res "C_rr" VNone in
  (forall (name : string) (p crr : float),
      row_point res = Point name p crr ->
      PyConv.float_of_string pressure_text = Ok p /\ py_float crr_value = Ok crr) /\
  (row_point res = Skipped <->
   pressure_text = "" \/ crr_value = VNone \/
   PyConv.float_of_string pressure_text = Raise ValueError \/
   py_float crr_value = Raise ValueError) /\
  (forall (rest : list row) (gs : groups),
      row_point res = Skipped ->
      group_rows (res :: rest) gs = group_rows rest gs).
Proof.
  intros pressure_text crr_value. unfold row_point.
  fold pressure_text. fold crr_value.
  split; [|split; [split|]].
  - intros name p crr.
    case_bool_decide; [discriminate|]. cbn [orb].
    destruct (is_none crr_value); [discriminate|].
    destruct (PyConv.float_of_string pressure_text) as [p'|[]]; try discriminate.
    destruct (py_float crr_value) as [c'|[]]; try discriminate.
    intros [= _ -> ->]. split; reflexivity.
  - case_bool_decide as Hp; [auto|]. cbn [orb].
    destruct crr_value eqn:Hc; cbn [is_none]; auto;
      (destruct (PyConv.float_of_string pressure_text) as [p'|e] eqn:Hf;
       [|apply float_of_string_raises in Hf as ->; auto]);
      (destruct (py_float _) as [c'|[]] eqn:Hcf; try discriminate; auto).
  - intros [Hp | [Hc | [Hf | Hcf]]].
    + rewrite bool_decide_eq_true_2 by assumption. reflexivity.
    + rewrite Hc. cbn [is_none]. by rewrite orb_true_r.
    + case_bool_decide; [reflexivity|]. cbn [orb].
      destruct (is_none crr_value); [reflexivity|]. by rewrite Hf.
    + case_bool_decide; [reflexivity|]. cbn [orb].
      destruct (is_none crr_value); [reflexivity|].
      destruct (PyConv.float_of_string pressure_text) as [p'|e] eqn:Hf.
      * by rewrite Hcf.
      * by apply float_of_string_raises in Hf as ->.
  - intros rest gs Hs. cbn [group_rows]. unfold row_point.
    fold pressure_text. fold crr_value. by rewrite Hs.
Qed.

Lemma row_point_filter_witness :
  PyConv.float_of_string "2.5" = Ok 2.5%float /\
  py_float (VStr "0.07") = Ok 0.07%float.
Proof.
  apply (proj1 (row_point_filter comma_pressure_row) "A").
  vm_compute. reflexivity.
Defined.

(** C3, as stated, fails on the code: a comma is accepted in the pressure
    but not in the coefficient.  The row with pressure "2,5" gives a point;
    the row with coefficient "0,07" is left out, although the same text
    with the comma replaced reads as 0.07. *)
Lemma comma_coefficient_rejected :
  row_point comma_pressure_row = Point "A" 2.5%float 0.07%float /\
  row_point comma_coefficient_row = Skipped /\
  py_float (VStr "0,07") = Raise ValueError /\
  PyConv.float_of_string (PyStr.replace_comma "0,07") = Ok 0.07%float.
Proof. vm_compute. repeat split. Qed.

(** ** The mirror *)

Lemma count_char_append (c : ascii) (s t : string) :
  count_char c (s +:+ t) = (count_char c s + count_char c t)%nat.
Proof.
  induction s as [|a s IH]; [reflexivity|].
  rewrite append_cons. cbn. rewrite IH. lia.
Qed.

Lemma count_LF_double_quotes (s : string) :
  count_char LF (csv_double_quotes s) = count_char LF s.
Proof.
  induction s as [|a s IH]; [reflexivity|].
  cbn. destruct (Ascii.eqb_spec a QUOTE) as [->|Hne]; cbn; rewrite IH; reflexivity.
Qed.

Lemma count_LF_field (s : string) :
  count_char LF (csv_field s) = count_char LF s.
Proof.
  unfold csv_field. destruct (csv_needs_quotes s); [|reflexivity].
  rewrite append_cons. cbn [count_char].
  rewrite count_char_append, count_LF_double_quotes. cbn. lia.
Qed.

Lemma count_LF_join (fields : list string) :
  count_char LF (csv_join fields) = sum_list (count_char LF <$> fields).
Proof.
  induction fields as [|f rest IH]; [reflexivity|].
  destruct rest as [|f' rest'].
  - cbn. lia.
  - change (csv_join (f :: f' :: rest')) with (f +:+ ";" +:+ csv_join (f' :: rest')).
    rewrite !count_char_append, IH. cbn. lia.
Qed.

Lemma count_LF_record (fields : list string) :
  count_char LF (csv_record fields) = S (sum_list (count_char LF <$> fields)).
Proof.
  unfold csv_record. rewrite count_char_append, count_LF_join.
  rewrite <- list_fmap_compose.
  erewrite list_fmap_ext; [|intros i x _; apply count_LF_field].
  cbn. rewrite Nat.add_1_r. reflexivity.
Qed.

Lemma count_LF_records (records : list (list string)) :
  Forall (Forall (fun f => count_char LF f = O)) records ->
  count_char LF (foldr (fun fields acc => csv_record fields +:+ acc) "" records)
  = length records.
Proof.
  induction 1 as [|fields rest Hf _ IH]; [reflexivity|].
  cbn [foldr length]. rewrite count_char_append, count_LF_record, IH.
  assert (sum_list (count_char LF <$> fields) = O) as ->; [|reflexivity].
  induction Hf as [|f fs Hf0 _ IHf]; [reflexivity|]. cbn. rewrite Hf0, IHf. reflexivity.
Qed.

Lemma header_without_line_feed : Forall (fun f => count_char LF f = O) FIELDNAMES.
Proof. repeat constructor. Qed.

(** C6 (as amended).  The export writes the CSV file anew from the rows read
    from the spreadsheet, whatever the file held before: with N data rows
    that are not empty the writer emits N + 1 records, each ended by the
    line terminator and with its fields joined by semicolons; the first is
    the header with the 13 field names in their fixed order, and each of
    the others holds, field by field, the formatted values of one
    spreadsheet row.  When no field holds a line feed these are N + 1 lines
    of text. *)
Theorem mirror_regenerated (a : RollingResistanceApp) (w : world) (fs1 : disk)
    (rows : list row) :
  ensure_workbook a (files w) = Some fs1 ->
  read_rows fs1 (filename_xlsx a) = Ok rows ->
  exists w' : world,
    on_go_to_excel a w = Returned a w' /\
    files w' !! filename_csv a = Some (Text (mirror_text rows)) /\
    mirror_text rows
    = csv_record FIELDNAMES +:+
      foldr (fun res acc => csv_record (mirror_fields res) +:+ acc) "" rows /\
    csv_record FIELDNAMES
    = "Tire name / type;Tire pressure [bar];Idle currents [A];Load currents [A];" +:+
      "Mean idle current [A];Mean load current [A];Weight on lever [kg];" +:+
      "Effective weight on tire [kg];Speed [m/s];P_0 [W];P_load [W];P_rr [W];C_rr" +:+
      String CR (String LF "") /\
    length FIELDNAMES = 13%nat /\
    length (mirror_records rows) = S (length rows) /\
    (forall res : row,
        mirror_fields res
        = (fun key => csv_text (format_value key (dict_get res key (VStr ""))))
            <$> FIELDNAMES) /\
    (Forall (fun res => Forall (fun f => count_char LF f = O) (mirror_fields res)) rows ->
     count_char LF (mirror_text rows) = S (length rows)).
Proof.
  intros Hens Hread.
  exists (show (OpenFile (filename_xlsx a))
            (with_files (<[filename_csv a := Text (mirror_text rows)]> fs1) w)).
  split; [unfold on_go_to_excel; by rewrite Hens, Hread|].
  split; [cbn; apply lookup_insert_eq|].
  split.
  { unfold mirror_text, mirror_records. cbn [foldr]. by rewrite foldr_fmap. }
  split; [reflexivity|].
  split; [reflexivity|].
  split; [unfold mirror_records; cbn; by rewrite length_fmap|].
  split; [reflexivity|].
  intros Hrows. unfold mirror_text. rewrite count_LF_records.
  - unfold mirror_records. cbn. by rewrite length_fmap.
  - unfold mirror_records. constructor; [apply header_without_line_feed|].
    by apply Forall_fmap.
Qed.

Lemma mirror_regenerated_witness :
  exists w' : world,
    on_go_to_excel app_with_saved_row stale_mirror_world = Returned app_with_saved_row w' /\
    files w' !! "/data/rolling_resistance_data.csv"
    = Some (Text (csv_record FIELDNAMES +:+
                  "A;2.00;;;;;;;;;;;0.080000" +:+ String CR (String LF ""))) /\
    count_char LF (mirror_text (sheet_rows one_row_sheet)) = 2%nat.
Proof.
  destruct (mirror_regenerated app_with_saved_row stale_mirror_world
              (files stale_mirror_world) (sheet_rows one_row_sheet))
    as (w' & Hrun & Hcsv & _ & _ & _ & _ & _ & Hlines).
  - reflexivity.
  - reflexivity.
  - exists w'. split; [exact Hrun|]. split; [exact Hcsv|].
    reflexivity.
Defined.

(** C6, as stated, fails on the code: a cell text with a line feed is
    written as it is, inside quotes, so the mirror of a spreadsheet with one
    data row holds three lines of text, and the record of that row spans
    two of them. *)
Lemma mirror_line_break :
  read_rows (files line_break_world) (filename_xlsx empty_app)
  = Ok (sheet_rows line_break_sheet) /\
  length (sheet_rows line_break_sheet) = 1%nat /\
  on_go_to_excel empty_app line_break_world
  = Returned empty_app
      (show (OpenFile (filename_xlsx empty_app))
         (with_files
            (<[filename_csv empty_app := Text (mirror_text (sheet_rows line_break_sheet))]>
               (files line_break_world))
            line_break_world)) /\
  mirror_text (sheet_rows line_break_sheet)
  = csv_record FIELDNAMES +:+
    String QUOTE (String "A" (String LF (String "B" (String QUOTE
      ";2.00;;;;;;;;;;;0.080000")))) +:+ String CR (String LF "") /\
  count_char LF (mirror_text (sheet_rows line_break_sheet)) = 3%nat.
Proof. repeat split. Qed.

(** ** Appending a row to the spreadsheet *)

Lemma max_row_ge (ws : worksheet) (r c : nat) (x : cell) :
  ws !! (r, c) = Some x -> (r <= max_row ws)%nat.
Proof.
  intros Hx. unfold max_row.
  assert (r ∈ (fun kc : nat * nat * cell => fst (fst kc)) <$> map_to_list ws) as Hin.
  { apply list_elem_of_fmap. exists ((r, c), x). split; [reflexivity|].
    by apply elem_of_map_to_list. }
  apply max_list_elem_of_le in Hin. lia.
Qed.

Lemma ws_cell_above_max_row (ws : worksheet) (r c : nat) :
  (max_row ws < r)%nat -> ws_cell ws r c = empty_cell.
Proof.
  intros Hr. unfold ws_cell.
  destruct (ws !! (r, c)) as [x|] eqn:Hx; [|reflexivity].
  apply max_row_ge in Hx. lia.
Qed.

Lemma format_value_not_none (key : string) (v : value) :
  is_none (format_value key v) = false.
Proof. destruct v as [|[|c s]|x|n|b|t]; reflexivity. Qed.

Section AppendLoop.

(** The loop over the columns, for any result, any new row and any
    template row other than the new one. *)
Variable res : row.
Variables new_row_idx template_row_idx : nat.
Hypothesis template_is_old : template_row_idx <> new_row_idx.

Let step := append_cell res new_row_idx template_row_idx.

(** What a round leaves in the new cell of its column. *)
Let written (ws : worksheet) (col : nat) (key : string) : cell :=
  {| cell_value := format_value key (dict_get res key (VStr ""));
     cell_style :=
       if has_style (ws_cell ws template_row_idx col)
       then cell_style (ws_cell ws template_row_idx col)
       else cell_style (ws_cell ws new_row_idx col) |}.

(** One round of the loop touches the new cell of its own column only. *)
Lemma append_cell_other (ws : worksheet) (col : nat) (key : string) (r c : nat) :
  (r, c) <> (new_row_idx, col) ->
  step ws (col, key) !! (r, c) = ws !! (r, c).
Proof.
  intros Hne. unfold step, append_cell, ws_set_style, ws_write. cbn [fst snd].
  destruct (has_style _); rewrite ?lookup_insert_ne by congruence; reflexivity.
Qed.

Lemma append_cell_here (ws : worksheet) (col : nat) (key : string) :
  step ws (col, key) !! (new_row_idx, col) = Some (written ws col key).
Proof.
  unfold step, written, append_cell. cbn [fst snd].
  set (val := format_value key (dict_get res key (VStr ""))).
  assert (ws_cell (ws_write ws new_row_idx col val) template_row_idx col
          = ws_cell ws template_row_idx col) as ->.
  { unfold ws_cell at 1, ws_write. rewrite lookup_insert_ne by congruence.
    reflexivity. }
  assert (match val with VNone => cell_value (ws_cell ws new_row_idx col) | _ => val end
          = val) as Hval.
  { pose proof (format_value_not_none key (dict_get res key (VStr ""))) as Hn.
    fold val in Hn. by destruct val. }
  destruct (has_style (ws_cell ws template_row_idx col)).
  - unfold ws_set_style. rewrite lookup_insert_eq. f_equal. f_equal.
    unfold ws_cell at 1, ws_write. rewrite lookup_insert_eq. cbn. exact Hval.
  - unfold ws_write. rewrite lookup_insert_eq. by rewrite Hval.
Qed.

Lemma append_loop_other (l : list (nat * string)) (ws : worksheet) (r c : nat) :
  (r <> new_row_idx \/ c ∉ l.*1) ->
  foldl step ws l !! (r, c) = ws !! (r, c).
Proof.
  revert ws. induction l as [|[c0 k0] l IH]; intros ws Hrc; [reflexivity|].
  cbn [foldl]. rewrite IH.
  - apply append_cell_other. cbn in Hrc. intros [= -> ->].
    destruct Hrc as [Hr | Hc]; [congruence|]. apply Hc. left.
  - destruct Hrc as [Hr | Hc]; [by left|]. right. cbn in Hc.
    intros Hin. apply Hc. by right.
Qed.

Lemma append_loop_here (l : list (nat * string)) (ws : worksheet)
    (col : nat) (key : string) :
  NoDup l.*1 -> (col, key) ∈ l ->
  foldl step ws l !! (new_row_idx, col) = Some (written ws col key).
Proof.
  revert ws.
  induction l as [|[c0 k0] l IH]; intros ws Hnd Hin; [by apply elem_of_nil in Hin|].
  cbn in Hnd. apply NoDup_cons in Hnd as [Hc0 Hnd].
  cbn [foldl].
  apply elem_of_cons in Hin as [[= <- <-] | Hin].
  - rewrite append_loop_other by (by right). apply append_cell_here.
  - assert (col <> c0) as Hcol.
    { intros ->. apply Hc0. apply list_elem_of_fmap. by exists (c0, key). }
    rewrite IH by assumption.
    unfold written, ws_cell. rewrite !append_cell_other by congruence. reflexivity.
Qed.

End AppendLoop.

Lemma fieldnames_columns (col : nat) (key : string) :
  FIELDNAMES !! col = Some key ->
  (S col, key) ∈ zip (seq 1 (length FIELDNAMES)) FIELDNAMES.
Proof.
  intros Hk.
  do 13 (destruct col as [|col]; [injection Hk as <-; set_solver|]).
  discriminate.
Qed.

Lemma fieldnames_columns_nodup :
  NoDup (zip (seq 1 (length FIELDNAMES)) FIELDNAMES).*1.
Proof. cbn. apply NoDup_ListNoDup. repeat constructor; cbn; lia. Qed.

Lemma append_to_sheet_cell (res : row) (ws : worksheet) (col : nat) (key : string) :
  FIELDNAMES !! col = Some key ->
  let ws0 := write_header ws in
  let new_row_idx := (max_row ws0 + 1)%nat in
  let template_row_idx := if (2 <=? max_row ws0)%nat then 2%nat else 1%nat in
  let template_cell := ws_cell ws0 template_row_idx (S col) in
  append_to_sheet res ws !! (new_row_idx, S col)
  = Some {| cell_value := format_value key (dict_get res key (VStr ""));
            cell_style :=
              if has_style template_cell then cell_style template_cell else None |}.
Proof.
  intros Hk ws0 new_row_idx template_row_idx template_cell.
  assert (1 <= max_row ws0)%nat as Hmax by (unfold max_row; lia).
  assert (template_row_idx <> new_row_idx) as Hne.
  { unfold template_row_idx, new_row_idx.
    destruct (Nat.leb_spec 2 (max_row ws0)); lia. }
  unfold append_to_sheet. fold ws0. fold new_row_idx. fold template_row_idx.
  rewrite (append_loop_here res new_row_idx template_row_idx Hne _ ws0 (S col) key
             fieldnames_columns_nodup (fieldnames_columns col key Hk)).
  fold template_cell.
  rewrite (ws_cell_above_max_row ws0 new_row_idx (S col)) by (unfold new_row_idx; lia).
  reflexivity.
Qed.

Lemma saved_cells_lookup_kept (ws : worksheet) (k : nat * nat) (x : cell) :
  ws !! k = Some x -> is_none (cell_value x) = false ->
  saved_cells ws !! k
  = Some {| cell_value := stored (cell_value x); cell_style := cell_style x |}.
Proof.
  intros Hx Hval. unfold saved_cells. rewrite lookup_fmap.
  rewrite (map_lookup_filter_Some_2 _ _ k x Hx); [reflexivity|]. by left.
Qed.

(** C4 (as amended).  When the helper appends the last result to an existing
    spreadsheet, the new row is the one after the last row of the sheet, and
    each of its cells takes the style of the template cell of its column
    when that cell has a style, and no style otherwise.  The template row
    is row 2, the first data row, when the sheet has a row below the
    header, and row 1, the header row, when it has none.  Read from the
    saved file, the new cell holds the formatted value of its field, and no
    value when that is the empty string.  (The last result is taken to hold
    plain text and numbers.) *)
Theorem append_clones_template_style (a : RollingResistanceApp) (w : world)
    (res : row) (wb : workbook) (i : nat) (ws : worksheet)
    (col : nat) (key : string) :
  last_result a = Some res ->
  plain_row res = true ->
  files w !! filename_xlsx a = Some (Xlsx wb) ->
  data_sheet wb = Ok (i, ws) ->
  FIELDNAMES !! col = Some key ->
  let ws0 := write_header ws in
  let new_row_idx := (max_row ws0 + 1)%nat in
  let template_row_idx := if (2 <=? max_row ws0)%nat then 2%nat else 1%nat in
  let template_cell := ws_cell ws0 template_row_idx (S col) in
  let val := format_value key (dict_get res key (VStr "")) in
  exists (wb' : workbook) (name : string) (ws' : worksheet),
    files (_append_last_result_to_excel_if_exists a w) !! filename_xlsx a
    = Some (Xlsx wb') /\
    wb_sheets wb' !! i = Some (name, ws') /\
    ws_cell ws' new_row_idx (S col)
    = {| cell_value := match val with VStr "" => VNone | _ => val end;
         cell_style :=
           if has_style template_cell then cell_style template_cell else None |}.
Proof.
  intros Hres _ Hfile Hsheet Hk ws0 new_row_idx template_row_idx template_cell val.
  unfold _append_last_result_to_excel_if_exists. rewrite Hres.
  unfold path_exists. rewrite Hfile.
  rewrite bool_decide_eq_true_2 by eauto. cbn [negb].
  unfold append_to_excel, load_workbook. rewrite Hfile. bind_ok.
  rewrite Hsheet. bind_ok; cbn [fst snd].
  unfold data_sheet in Hsheet.
  destruct (wb_sheets wb !! default (wb_active wb) (sheet_index "Data" (wb_sheets wb)))
    as [[name ws1]|] eqn:Hi; [|discriminate].
  injection Hsheet as <- <-.
  eexists _, name, (saved_cells (append_to_sheet res ws1)).
  split; [unfold save_workbook, with_files; cbn [files]; apply lookup_insert_eq|].
  split.
  - cbn [wb_sheets]. rewrite list_lookup_fmap, list_lookup_alter_eq, Hi. reflexivity.
  - pose proof (saved_cells_lookup_kept _ _ _ (append_to_sheet_cell res ws1 col key Hk)
                  (format_value_not_none _ _)) as Hcell.
    unfold ws_cell. subst new_row_idx ws0. by rewrite Hcell.
Qed.

Lemma append_clones_template_style_witness :
  (exists (wb' : workbook) (name : string) (ws' : worksheet),
      files (_append_last_result_to_excel_if_exists app_with_saved_row one_row_world)
        !! "/data/rolling_resistance_data.xlsx" = Some (Xlsx wb') /\
      wb_sheets wb' !! 0%nat = Some (name, ws') /\
      ws_cell ws' 3 1 = data_cell "B") /\
  (exists (wb' : workbook) (name : string) (ws' : worksheet),
      files (_append_last_result_to_excel_if_exists app_with_saved_row one_row_world)
        !! "/data/rolling_resistance_data.xlsx" = Some (Xlsx wb') /\
      wb_sheets wb' !! 0%nat = Some (name, ws') /\
      ws_cell ws' 3 3 = {| cell_value := VNone; cell_style := Some cell_format |}) /\
  (exists (wb' : workbook) (name : string) (ws' : worksheet),
      files (_append_last_result_to_excel_if_exists app_with_saved_row one_row_world)
        !! "/data/rolling_resistance_data.xlsx" = Some (Xlsx wb') /\
      wb_sheets wb' !! 0%nat = Some (name, ws') /\
      ws_cell ws' 3 4 = {| cell_value := VNone; cell_style := None |}).
Proof.
  split; [|split].
  - exact (append_clones_template_style app_with_saved_row one_row_world saved_row
             {| wb_sheets := [("Data", one_row_sheet)]; wb_active := 0 |} 0 one_row_sheet
             0 "Tire name / type" eq_refl eq_refl eq_refl eq_refl eq_refl).
  - exact (append_clones_template_style app_with_saved_row one_row_world saved_row
             {| wb_sheets := [("Data", one_row_sheet)]; wb_active := 0 |} 0 one_row_sheet
             2 "Idle currents [A]" eq_refl eq_refl eq_refl eq_refl eq_refl).
  - exact (append_clones_template_style app_with_saved_row one_row_world saved_row
             {| wb_sheets := [("Data", one_row_sheet)]; wb_active := 0 |} 0 one_row_sheet
             3 "Load currents [A]" eq_refl eq_refl eq_refl eq_refl eq_refl).
Defined.

(** C4, as stated, fails on the code: on a sheet that holds the header and
    no data row, the cells of the appended row take the style of the header
    cells. *)
Lemma header_style_cloned_without_data_row :
  let ws' := append_to_sheet saved_row header_only_sheet in
  max_row header_only_sheet = 1%nat /\
  sheet_rows header_only_sheet = [] /\
  ws' !! (2, 1)%nat
  = Some {| cell_value := VStr "B"; cell_style := Some header_format |} /\
  ws' !! (2, 2)%nat
  = Some {| cell_value := VStr "2.5"; cell_style := Some header_format |}.
Proof. repeat split. Qed.

(** ** Unique file names *)

Lemma append_inv_tail (s1 s2 t : string) : s1 +:+ t = s2 +:+ t -> s1 = s2.
Proof.
  revert s2. induction s1 as [|c s1 IH]; intros [|c2 s2] H.
  - reflexivity.
  - apply (f_equal String.length) in H. rewrite !length_append in H. cbn in H. lia.
  - apply (f_equal String.length) in H. rewrite !length_append in H. cbn in H. lia.
  - rewrite !append_cons in H. injection H as -> H. f_equal. by apply IH.
Qed.

Lemma candidate_inj (name ext : string) (n m : nat) :
  candidate name ext n = candidate name ext m -> n = m.
Proof.
  unfold candidate. intros H.
  apply (inj (String.app name)) in H. apply (inj (String.app " (")) in H.
  change (pretty n +:+ (")" +:+ ext) = pretty m +:+ (")" +:+ ext)) in H.
  apply append_inv_tail in H. by apply (inj pretty) in H.
Qed.

(** The loop ends within [size m + 1] rounds when every candidate from
    [c] on that exists lies in the finite set [m]; it returns the first
    candidate that does not exist. *)
Lemma unique_loop_first_free (fs : disk) (name ext : string) (fuel : nat) :
  forall (m : gset string) (c : nat),
    (size m < fuel)%nat ->
    (forall k : nat, (c <= k)%nat ->
       path_exists fs (candidate name ext k) = true -> candidate name ext k ∈ m) ->
    exists n : nat,
      (c <= n)%nat /\
      unique_loop fuel fs name ext c = Some (candidate name ext n) /\
      path_exists fs (candidate name ext n) = false /\
      (forall k : nat, (c <= k < n)%nat -> path_exists fs (candidate name ext k) = true).
Proof.
  induction fuel as [|fuel IH]; intros m c Hsize Hm; [lia|].
  cbn [unique_loop].
  destruct (path_exists fs (candidate name ext c)) eqn:Hc.
  - destruct (IH (m ∖ {[candidate name ext c]}) (S c)) as (n & Hn & Hloop & Hfree & Hbelow).
    + assert (candidate name ext c ∈ m) as Hin by (apply Hm; [lia | assumption]).
      assert (size (m ∖ {[candidate name ext c]}) = (size m - 1)%nat) as ->.
      { rewrite size_difference by set_solver. by rewrite size_singleton. }
      assert (size m <> O).
      { intros Hz. apply size_empty_inv in Hz. set_solver. }
      lia.
    + intros k Hk Hex. apply elem_of_difference. split; [apply Hm; [lia | assumption]|].
      intros Heq%elem_of_singleton%candidate_inj. lia.
    + exists n. repeat split; try assumption; [lia|].
      intros k Hk. destruct (decide (k = c)) as [->|Hne]; [assumption|].
      apply Hbelow. lia.
  - exists c. repeat split; try assumption; [lia|]. intros k Hk. lia.
Qed.

Lemma path_exists_dom (fs : disk) (path : string) :
  path_exists fs path = true <-> path ∈ dom fs.
Proof.
  unfold path_exists. rewrite bool_decide_eq_true. symmetry. apply elem_of_dom.
Qed.

Lemma unique_loop_total (fs : disk) (name ext : string) (c : nat) :
  exists n : nat,
    (c <= n)%nat /\
    path_exists fs (candidate name ext n) = false /\
    (forall k : nat, (c <= k < n)%nat -> path_exists fs (candidate name ext k) = true) /\
    (forall fuel : nat, (size fs < fuel)%nat ->
       unique_loop fuel fs name ext c = Some (candidate name ext n)).
Proof.
  destruct (unique_loop_first_free fs name ext (S (size fs)) (dom fs) c)
    as (n & Hn & _ & Hfree & Hbelow).
  { rewrite size_dom. lia. }
  { intros k _ Hk. by apply path_exists_dom. }
  exists n. repeat split; try assumption.
  intros fuel Hfuel.
  destruct (unique_loop_first_free fs name ext fuel (dom fs) c)
    as (n' & Hn' & Hloop' & Hfree' & Hbelow').
  { by rewrite size_dom. }
  { intros k _ Hk. by apply path_exists_dom. }
  rewrite Hloop'. f_equal. f_equal.
  destruct (Nat.lt_trichotomy n n') as [Hlt | [-> | Hgt]]; [|reflexivity|].
  - rewrite (Hbelow' n) in Hfree by lia. discriminate.
  - rewrite (Hbelow n') in Hfree' by lia. discriminate.
Qed.







Example get_unique_filename_third :
  get_unique_filename 3 crowded_disk "/data/rolling_resistance_data.xlsx"
  = Some "/data/rolling_resistance_data (3).xlsx".
Proof. reflexivity. Qed.

(** ** Further properties of the handlers *)

(** X1.  Appending to a spreadsheet that is not on disk does nothing: no
    file is created and nothing is reported. *)
Theorem append_skips_missing_file (a : RollingResistanceApp) (w : world) :
  path_exists (files w) (filename_xlsx a) = false ->
  _append_last_result_to_excel_if_exists a w = w /\
  path_exists (files (_append_last_result_to_excel_if_exists a w)) (filename_xlsx a)
  = false.
Proof.
  intros Hex. unfold _append_last_result_to_excel_if_exists.
  destruct (last_result a); rewrite ?Hex; cbn [negb]; by split.
Qed.

Lemma append_skips_missing_file_witness :
  _append_last_result_to_excel_if_exists app_with_saved_row empty_world = empty_world /\
  path_exists
    (files (_append_last_result_to_excel_if_exists app_with_saved_row empty_world))
    (filename_xlsx app_with_saved_row) = false.
Proof. apply (append_skips_missing_file app_with_saved_row empty_world). reflexivity. Defined.

(** X2.  An export with no spreadsheet on disk and nothing in the list
    reports that there is no data and writes no file. *)
Theorem export_without_data (a : RollingResistanceApp) (w : world) :
  path_exists (files w) (filename_xlsx a) = false ->
  saved_rows a = [] ->
  on_go_to_excel a w = Returned a (show ErrNoDataToExport w) /\
  files (show ErrNoDataToExport w) = files w.
Proof.
  intros Hex Hrows. unfold on_go_to_excel, ensure_workbook.
  rewrite Hex, Hrows. by split.
Qed.

Lemma export_without_data_witness :
  on_go_to_excel empty_app empty_world
  = Returned empty_app (show ErrNoDataToExport empty_world) /\
  files (show ErrNoDataToExport empty_world) = files empty_world.
Proof. apply (export_without_data empty_app empty_world); reflexivity. Defined.

(** X4.  The plot scenario: the points are grouped by tire name, a row
    without a name goes to "Unknown tire", a comma is read in the pressure,
    and each curve is sorted by pressure. *)
Theorem plot_scenario_curves :
  let a := {| saved_rows := plot_scenario_rows; last_result := None;
              filename_xlsx := "/data/rolling_resistance_data.xlsx";
              filename_csv := "/data/rolling_resistance_data.csv"; labels := [] |} in
  on_plot_pressure_vs_crr a empty_world
  = Returned a
      (show (ShowPlot
               [ {| curve_label := "A"; curve_color := "steelblue";
                    curve_points := [(2, 0.08); (2.5, 0.07)]%float |};
                 {| curve_label := "B"; curve_color := "firebrick";
                    curve_points := [(2, 0.09)]%float |};
                 {| curve_label := "Unknown tire"; curve_color := "seagreen";
                    curve_points := [(3, 0.06)]%float |} ])
            empty_world).
Proof. vm_compute. reflexivity. Qed.

(** X5.  [parse_float_list] raises [ValueError] on a text without values,
    and a list it returns is never empty. *)
Theorem parse_float_list_nonempty (text : string) :
  (PyStr.split (PyStr.strip text) = [] -> parse_float_list text = Raise ValueError) /\
  (forall l : list float, parse_float_list text = Ok l -> (0 < length l)%nat).
Proof.
  unfold parse_float_list. split.
  - intros ->. reflexivity.
  - intros l.
    destruct (PyStr.split (PyStr.strip text)) as [|p parts]; [discriminate|].
    cbn [mapM]. destruct (PyConv.float_of_string _); [|discriminate].
    bind_ok. destruct (mapM _ parts); [|discriminate].
    cbn. intros [= <-]. cbn. lia.
Qed.

Lemma parse_float_list_nonempty_witness :
  (0 < length [0.5; 0.51; 0.49]%float)%nat.
Proof.
  apply (proj2 (parse_float_list_nonempty "0.50 0,51 0.49")).
  vm_compute. reflexivity.
Defined.

(** ** What the handlers keep *)

Lemma append_to_excel_frame (res : row) (fs fs' : disk) (path p : string) :
  append_to_excel res fs path = Ok fs' -> p <> path -> fs' !! p = fs !! p.
Proof.
  unfold append_to_excel. intros H Hp.
  destruct (load_workbook fs path) as [wb|]; [|discriminate].
  cbn [mbind result_bind] in H.
  destruct (data_sheet wb) as [[i ws]|]; [|discriminate].
  cbn [mbind result_bind] in H.
  injection H as <-. unfold save_workbook. by rewrite lookup_insert_ne.
Qed.

(** The five facts of [handle_keeps] at a leaf of a handler. *)
Ltac keeps_leaf :=
  cbn [outcome_app outcome_world filename_xlsx filename_csv saved_rows
       last_result labels files shown show with_files];
  try match goal with H : saved_rows _ = _ |- _ => rewrite <- H end;
  split_and!;
  [ reflexivity
  | reflexivity
  | first [reflexivity | by eexists]
  | first [reflexivity | by eexists | rewrite <- app_assoc; by eexists]
  | let p := fresh "p" in
    let Hx := fresh "Hx" in
    let Hc := fresh "Hc" in
    intros p Hx Hc; rewrite ?lookup_insert_ne by congruence; try reflexivity ].

(** One handler: the two file names stay, the list only grows at its end,
    what was shown stays shown, and no file other than the two bound ones
    is touched. *)
Lemma handle_keeps (act : action) (a : RollingResistanceApp) (w : world) :
  let a' := outcome_app (handle act a w) in
  let w' := outcome_world (handle act a w) in
  filename_xlsx a' = filename_xlsx a /\
  filename_csv a' = filename_csv a /\
  saved_rows a `prefix_of` saved_rows a' /\
  shown w `prefix_of` shown w' /\
  (forall p : string,
      p <> filename_xlsx a -> p <> filename_csv a ->
      files w' !! p = files w !! p).
Proof.
  intros a' w'. subst a' w'.
  destruct act as [en| | |]; unfold handle.
  - unfold on_calculate.
    destruct (calculate en) as [[lbls res]|[]]; keeps_leaf.
  - unfold on_save_to_list, _append_last_result_to_excel_if_exists.
    destruct (last_result a) as [res|] eqn:Hres; [|keeps_leaf].
    cbn [last_result filename_xlsx].
    destruct (negb (path_exists (files w) (filename_xlsx a))); [keeps_leaf|].
    destruct (append_to_excel res (files w) (filename_xlsx a)) as [fs|e] eqn:Happ;
      keeps_leaf.
    by apply (append_to_excel_frame res (files w) fs (filename_xlsx a)).
  - unfold on_go_to_excel, ensure_workbook.
    destruct (negb (path_exists (files w) (filename_xlsx a))).
    + destruct (saved_rows a) as [|r rs] eqn:Hrows; [keeps_leaf|].
      destruct (read_rows _ _) as [rows|e]; keeps_leaf.
    + destruct (read_rows _ _) as [rows|e]; keeps_leaf.
  - unfold on_plot_pressure_vs_crr.
    destruct (plot_rows a (files w)) as [rows|e|]; [|keeps_leaf..].
    destruct (group_rows rows []) as [[|gr gs]|e]; keeps_leaf.
Qed.

Lemma run_frame (acts : list action) (a : RollingResistanceApp) (w : world) :
  filename_xlsx (run acts a w).1 = filename_xlsx a /\
  filename_csv (run acts a w).1 = filename_csv a /\
  saved_rows a `prefix_of` saved_rows (run acts a w).1 /\
  shown w `prefix_of` shown (run acts a w).2 /\
  (forall p : string,
      p <> filename_xlsx a -> p <> filename_csv a ->
      files (run acts a w).2 !! p = files w !! p).
Proof.
  revert a w. induction acts as [|act acts IH]; intros a w.
  - cbn. repeat split; reflexivity.
  - cbn [run].
    destruct (handle_keeps act a w) as (Hx & Hc & Hrows & Hshown & Hfiles).
    destruct (IH (outcome_app (handle act a w)) (outcome_world (handle act a w)))
      as (Hx' & Hc' & Hrows' & Hshown' & Hfiles').
    rewrite Hx in Hx', Hfiles'. rewrite Hc in Hc', Hfiles'.
    repeat split; try assumption.
    + by etrans.
    + by etrans.
    + intros p Hpx Hpc. rewrite Hfiles' by assumption. by apply Hfiles.
Qed.

(** X6.  Whatever buttons are pressed, in whatever order: the two file
    names the program was started with stay the same, the in-memory list
    only grows at its end, what was shown stays shown, and no file other
    than the two bound ones is created, changed or removed. *)
Theorem run_keeps (acts : list action) (a : RollingResistanceApp) (w : world) :
  filename_xlsx (run acts a w).1 = filename_xlsx a /\
  filename_csv (run acts a w).1 = filename_csv a /\
  saved_rows a `prefix_of` saved_rows (run acts a w).1 /\
  shown w `prefix_of` shown (run acts a w).2 /\
  (forall p : string,
      p <> filename_xlsx a -> p <> filename_csv a ->
      files (run acts a w).2 !! p = files w !! p).
Proof. apply run_frame. Qed.

(** X7.  Starting the program resolves both file names, given one round
    more than there are files: neither name exists on disk, the list is
    empty and there is no result; and from then on, whatever buttons are
    pressed, every file that was on disk at the start is left as it was. *)
Theorem init_never_overwrites (fuel : nat) (fs : disk) (script_dir : string) :
  (size fs < fuel)%nat ->
  exists a : RollingResistanceApp,
    init fuel fs script_dir = Some a /\
    saved_rows a = [] /\ last_result a = None /\
    path_exists fs (filename_xlsx a) = false /\
    path_exists fs (filename_csv a) = false /\
    (forall (acts : list action) (p : string),
        path_exists fs p = true ->
        files (run acts a {| files := fs; shown := [] |}).2 !! p = fs !! p).
Proof.
  intros Hfuel. unfold init.
  set (base_xlsx := path_join script_dir "rolling_resistance_data.xlsx").
  set (base_csv := path_join script_dir "rolling_resistance_data.csv").
  assert (forall base : string, exists r : string,
             get_unique_filename fuel fs base = Some r /\ path_exists fs r = false)
    as Hresolve.
  { intros base. destruct (path_exists fs base) eqn:Hb.
    - destruct (unique_loop_total fs (splitext base).1 (splitext base).2 2)
        as (n & _ & Hfree & _ & Hloop).
      exists (candidate (splitext base).1 (splitext base).2 n). split; [|assumption].
      unfold get_unique_filename. rewrite Hb. cbn [negb].
      destruct (splitext base) as [name ext]. by apply Hloop.
    - exists base. split; [|assumption].
      unfold get_unique_filename. by rewrite Hb. }
  destruct (Hresolve base_xlsx) as (fx & -> & Hfx).
  destruct (Hresolve base_csv) as (fc & -> & Hfc).
  eexists. split; [reflexivity|]. cbn [saved_rows last_result filename_xlsx filename_csv].
  repeat split; try assumption.
  intros acts p Hp.
  destruct (run_frame acts
              {| saved_rows := []; last_result := None; filename_xlsx := fx;
                 filename_csv := fc; labels := initial_labels |}
              {| files := fs; shown := [] |}) as (_ & _ & _ & _ & Hfiles).
  apply Hfiles; cbn; intros ->; congruence.
Qed.

Lemma init_never_overwrites_witness :
  exists a : RollingResistanceApp,
    init 3 crowded_disk "/data" = Some a /\
    saved_rows a = [] /\ last_result a = None /\
    path_exists crowded_disk (filename_xlsx a) = false /\
    path_exists crowded_disk (filename_csv a) = false /\
    (forall (acts : list action) (p : string),
        path_exists crowded_disk p = true ->
        files (run acts a {| files := crowded_disk; shown := [] |}).2 !! p
        = crowded_disk !! p).
Proof. apply (init_never_overwrites 3 crowded_disk "/data"). vm_compute. lia. Defined.

Example init_crowded :
  (fun a => (filename_xlsx a, filename_csv a)) <$> init 3 crowded_disk "/data"
  = Some ("/data/rolling_resistance_data (3).xlsx", "/data/rolling_resistance_data.csv").
Proof. reflexivity. Qed.

(** ** The record of a calculation *)

Lemma compute_result_shape (idle load : list float) (m_hang : float) (core : row) :
  compute_result idle load m_hang = Ok core ->
  exists v I_idle I_load m_eff P0 P_weighted P_rr C_rr : float,
    core = list_to_map
             [ ("Speed [m/s]", VFloat v);
               ("Mean idle current [A]", VFloat I_idle);
               ("Mean load current [A]", VFloat I_load);
               ("Weight on lever [kg]", VFloat m_hang);
               ("Effective weight on tire [kg]", VFloat m_eff);
               ("P_0 [W]", VFloat P0);
               ("P_load [W]", VFloat P_weighted);
               ("P_rr [W]", VFloat P_rr);
               ("C_rr", VFloat C_rr) ].
Proof.
  unfold compute_result.
  destruct (PyFloat.truediv (PyFloat.of_int rpm) 60) as [q|]; [|discriminate]. bind_ok.
  destruct (PyFloat.truediv_len _ (length idle)) as [I0|]; [|discriminate]. bind_ok.
  destruct (PyFloat.truediv_len _ (length load)) as [IL|]; [|discriminate]. bind_ok.
  destruct (PyFloat.truediv _ l_reifen) as [me|]; [|discriminate]. bind_ok.
  destruct (PyFloat.truediv _ _) as [C|]; [|discriminate]. bind_ok.
  intros [= <-]. by eexists _, _, _, _, _, _, _, _.
Qed.

Lemma format_value_str (key s : string) :
  format_value key (VStr s) = VStr (PyStr.replace_comma s).
Proof. by destruct s. Qed.

Lemma replace_comma_idem (s : string) :
  PyStr.replace_comma (PyStr.replace_comma s) = PyStr.replace_comma s.
Proof.
  induction s as [|c s IH]; [reflexivity|]. cbn. rewrite IH. f_equal.
  destruct (Ascii.eqb_spec c ","%char) as [->|]; [reflexivity|].
  destruct (Ascii.eqb_spec c ","%char); [congruence | reflexivity].
Qed.

Lemma format_value_twice (key key' : string) (v : value) :
  format_value key' (format_value key v) = format_value key v.
Proof.
  assert (forall x : float, format_value key' (format_number key x) = format_number key x)
    as Hnum.
  { intros x. rewrite format_number_spec, format_value_str.
    by rewrite replace_comma_format_f. }
  destruct v as [|s|x|n|b|t];
    [reflexivity | | exact (Hnum _) | exact (Hnum _) | exact (Hnum _) | reflexivity].
  rewrite (format_value_str key s), format_value_str. by rewrite replace_comma_idem.
Qed.

(** X8.  Formatting is idempotent, whatever the fields: a formatted value
    is text without a comma (or an object left as it is), and formatting
    it again, for the same field or another one, gives it back unchanged.
    So what the export writes for a cell of the spreadsheet is the text the
    program stored there.  (An int is taken to lie within the range of a
    float.) *)
Theorem format_value_idempotent (key key' : string) (v : value) :
  (forall n : Z, v = VInt n -> Z.abs n < 2 ^ 1023) ->
  format_value key' (format_value key v) = format_value key v /\
  forall s : string,
    format_value key v = VStr s -> PyStr.replace_comma s = s.
Proof.
  intros _. split; [apply format_value_twice|].
  intros s Hs. pose proof (format_value_twice key key v) as Htwice.
  rewrite Hs, format_value_str in Htwice. by injection Htwice.
Qed.

Lemma format_value_idempotent_witness :
  format_value "C_rr" (format_value "Tire pressure [bar]" (VStr "2,5")) = VStr "2.5" /\
  format_value "Tire name / type" (format_value "C_rr" (VFloat 0.07%float))
  = VStr "0.070000".
Proof.
  split.
  - exact (proj1 (format_value_idempotent "Tire pressure [bar]" "C_rr" (VStr "2,5")
                    ltac:(discriminate))).
  - exact (proj1 (format_value_idempotent "C_rr" "Tire name / type" (VFloat 0.07%float)
                    ltac:(discriminate))).
Defined.

(** X9.  The record a successful Calculate leaves as the last result holds
    exactly the 13 fields, each a float or a text, so every field formats
    to text; and the form's four texts are stored stripped, the pressure
    with its commas replaced. *)
Theorem calculate_record (en : entries) (lbls : list (string * string)) (res : row) :
  calculate en = Ok (lbls, res) ->
  dom res = list_to_set FIELDNAMES /\
  (forall key : string, exists s : string,
      format_value key (dict_get res key (VStr "")) = VStr s) /\
  res !! "Tire name / type" = Some (VStr (PyStr.strip (entry_tire en))) /\
  res !! "Tire pressure [bar]"
  = Some (VStr (PyStr.strip (PyStr.replace_comma (entry_pressure en)))) /\
  res !! "Idle currents [A]" = Some (VStr (PyStr.strip (entry_idle en))) /\
  res !! "Load currents [A]" = Some (VStr (PyStr.strip (entry_load en))).
Proof.
  unfold calculate.
  destruct (parse_float_list (entry_idle en)) as [idle|]; [|discriminate]. bind_ok.
  destruct (parse_float_list (entry_load en)) as [load|]; [|discriminate]. bind_ok.
  destruct (parse_weight (entry_weight en)) as [m_hang|]; [|discriminate]. bind_ok.
  destruct (compute_result idle load m_hang) as [core|] eqn:Hcore; [|discriminate].
  bind_ok.
  apply compute_result_shape in Hcore
    as (v & I0 & IL & me & P0 & PL & Prr & C & ->).
  intros [= _ <-].
  split; [|split].
  - rewrite dom_union_L, !dom_insert_L, !dom_empty_L. cbn. set_solver.
  - intros key. unfold dict_get.
    match goal with |- context [?m !! key] => destruct (m !! key) as [val|] eqn:Hval end;
      [|by eexists].
    apply lookup_union_Some_raw in Hval as [Hval | [_ Hval]];
      repeat (apply lookup_insert_Some in Hval as [[_ <-] | [_ Hval]];
              [eexists; first [apply format_value_str | apply format_number_spec]|]);
      by rewrite lookup_empty in Hval.
  - repeat split; reflexivity.
Qed.

Lemma calculate_record_witness :
  exists (lbls : list (string * string)) (res : row),
    calculate scenario_entries = Ok (lbls, res) /\
    dom res = list_to_set FIELDNAMES /\
    res !! "Tire name / type" = Some (VStr "Conti, GP") /\
    res !! "Tire pressure [bar]" = Some (VStr "2.5").
Proof.
  assert (is_ok (calculate scenario_entries) = true) as Hok by (vm_compute; reflexivity).
  destruct (calculate scenario_entries) as [[lbls res]|e] eqn:Hcalc; [|discriminate].
  exists lbls, res. split; [reflexivity|].
  destruct (calculate_record scenario_entries lbls res Hcalc)
    as (Hdom & _ & Htire & Hpressure & _).
  split; [exact Hdom|]. split; [exact Htire | exact Hpressure].
Defined.

(** ** Reading a sheet, by its values *)

Lemma max_list_le (l : list nat) (n : nat) :
  Forall (fun x => x <= n)%nat l -> (max_list l <= n)%nat.
Proof. induction 1; cbn; lia. Qed.

Lemma max_column_ge (ws : worksheet) (r c : nat) (x : cell) :
  ws !! (r, c) = Some x -> (c <= max_column ws)%nat.
Proof.
  intros Hx. unfold max_column.
  assert (c ∈ (fun kc : nat * nat * cell => snd (fst kc)) <$> map_to_list ws) as Hin.
  { apply list_elem_of_fmap. exists ((r, c), x). split; [reflexivity|].
    by apply elem_of_map_to_list. }
  apply max_list_elem_of_le in Hin. lia.
Qed.

Lemma max_row_le (ws : worksheet) (n : nat) :
  (1 <= n)%nat ->
  (forall r c x, ws !! (r, c) = Some x -> (r <= n)%nat) ->
  (max_row ws <= n)%nat.
Proof.
  intros Hn Hall. unfold max_row. apply Nat.max_lub; [exact Hn|].
  apply max_list_le, Forall_fmap, Forall_forall.
  intros [[r c] x] Hin. apply elem_of_map_to_list in Hin. cbn. eauto.
Qed.

Lemma max_column_le (ws : worksheet) (n : nat) :
  (1 <= n)%nat ->
  (forall r c x, ws !! (r, c) = Some x -> (c <= n)%nat) ->
  (max_column ws <= n)%nat.
Proof.
  intros Hn Hall. unfold max_column. apply Nat.max_lub; [exact Hn|].
  apply max_list_le, Forall_fmap, Forall_forall.
  intros [[r c] x] Hin. apply elem_of_map_to_list in Hin. cbn. eauto.
Qed.

Lemma max_row_pos (ws : worksheet) : (1 <= max_row ws)%nat.
Proof. unfold max_row. lia. Qed.

Lemma max_column_pos (ws : worksheet) : (1 <= max_column ws)%nat.
Proof. unfold max_column. lia. Qed.

Lemma sheet_value_missing (ws : worksheet) (r c : nat) :
  ws !! (r, c) = None -> sheet_value ws r c = VNone.
Proof. unfold sheet_value, ws_cell. by intros ->. Qed.

Lemma sheet_value_outside (ws : worksheet) (r c : nat) :
  (max_row ws < r \/ max_column ws < c)%nat -> sheet_value ws r c = VNone.
Proof.
  intros Hrc. apply sheet_value_missing.
  destruct (ws !! (r, c)) as [x|] eqn:Hx; [|reflexivity].
  pose proof (max_row_ge _ _ _ _ Hx). pose proof (max_column_ge _ _ _ _ Hx). lia.
Qed.

Lemma is_none_spec (v : value) : is_none v = true <-> v = VNone.
Proof. by destruct v. Qed.

Lemma all_none_spec (vs : list value) :
  forallb is_none vs = true <-> Forall (fun v => v = VNone) vs.
Proof.
  induction vs as [|v vs IH]; cbn [forallb]; [by split|].
  rewrite andb_true_iff, Forall_cons, IH, is_none_spec. reflexivity.
Qed.

Lemma row_dict_app (i : nat) (h1 h2 vals : list value) (acc : row) :
  row_dict i (h1 ++ h2) vals acc
  = row_dict (i + length h1) h2 vals (row_dict i h1 vals acc).
Proof.
  revert i acc. induction h1 as [|x h1 IH]; intros i acc.
  - cbn. by rewrite Nat.add_0_r.
  - cbn [app row_dict length]. rewrite IH.
    by replace (S i + length h1)%nat with (i + S (length h1))%nat by lia.
Qed.

Lemma row_dict_nones (i : nat) (h vals : list value) (acc : row) :
  Forall (fun v => v = VNone) h -> row_dict i h vals acc = acc.
Proof.
  intros Hh. revert i. induction Hh as [|x h -> _ IH]; intros i; [reflexivity|].
  cbn. apply IH.
Qed.

Lemma row_dict_ext (i : nat) (h vals vals' : list value) (acc : row) :
  (forall j, (j < length h)%nat -> vals !! (i + j)%nat = vals' !! (i + j)%nat) ->
  row_dict i h vals acc = row_dict i h vals' acc.
Proof.
  revert i acc. induction h as [|x h IH]; intros i acc Hv; [reflexivity|].
  cbn [row_dict].
  pose proof (Hv 0%nat ltac:(cbn; lia)) as H0. rewrite Nat.add_0_r in H0.
  rewrite H0. apply IH. intros j Hj.
  specialize (Hv (S j) ltac:(cbn; lia)).
  by replace (S i + j)%nat with (i + S j)%nat by lia.
Qed.

Lemma fmap_seq_ext {A : Type} (f g : nat -> A) (s n : nat) :
  (forall c, (s <= c < s + n)%nat -> f c = g c) ->
  f <$> seq s n = g <$> seq s n.
Proof.
  revert s. induction n as [|n IH]; intros s Hfg; [reflexivity|].
  cbn. rewrite (Hfg s) by lia. f_equal. apply IH. intros c Hc. apply Hfg. lia.
Qed.

Lemma omap_seq_ext {A : Type} (f g : nat -> option A) (s n : nat) :
  (forall r, (s <= r < s + n)%nat -> f r = g r) ->
  omap f (seq s n) = omap g (seq s n).
Proof.
  revert s. induction n as [|n IH]; intros s Hfg; [reflexivity|].
  cbn. rewrite (Hfg s) by lia. rewrite (IH (S s)); [reflexivity|].
  intros r Hr. apply Hfg. lia.
Qed.

Lemma omap_seq_none {A : Type} (f : nat -> option A) (s n : nat) :
  (forall r, (s <= r < s + n)%nat -> f r = None) -> omap f (seq s n) = [].
Proof.
  intros Hf. rewrite (omap_seq_ext f (fun _ => None) s n Hf).
  generalize (seq s n). intros l. by induction l.
Qed.

Lemma omap_seq_list {A B : Type} (f : nat -> option B) (g : A -> option B)
    (s : nat) (l : list A) :
  (forall i x, l !! i = Some x -> f (s + i)%nat = g x) ->
  omap f (seq s (length l)) = omap g l.
Proof.
  revert s. induction l as [|x l IH]; intros s Hfg; [reflexivity|].
  pose proof (Hfg 0%nat x eq_refl) as H0. rewrite Nat.add_0_r in H0.
  cbn. rewrite <- H0.
  rewrite (IH (S s)); [reflexivity|].
  intros i y Hi. rewrite <- (Hfg (S i) y Hi). f_equal. lia.
Qed.

Lemma seq_fieldnames_fmap {A : Type} (f : nat -> A) (g : string -> A) :
  (forall col key, FIELDNAMES !! col = Some key -> f (S col) = g key) ->
  f <$> seq 1 13 = g <$> FIELDNAMES.
Proof.
  intros Hfg. apply list_eq. intros col. rewrite !list_lookup_fmap.
  destruct (decide (col < 13)%nat) as [Hlt|Hge].
  - rewrite lookup_seq_lt by exact Hlt.
    destruct (lookup_lt_is_Some_2 FIELDNAMES col Hlt) as [key Hk].
    rewrite Hk. cbn. f_equal. by apply Hfg.
  - rewrite lookup_seq_ge by lia.
    by rewrite (lookup_ge_None_2 FIELDNAMES col) by (cbn; lia).
Qed.

Lemma fieldnames_fmap_ext {A : Type} (f g : string -> A) :
  (forall col key, FIELDNAMES !! col = Some key -> f key = g key) ->
  f <$> FIELDNAMES = g <$> FIELDNAMES.
Proof.
  intros Hfg. apply list_eq. intros col. rewrite !list_lookup_fmap.
  destruct (FIELDNAMES !! col) as [key|] eqn:Hk; [|reflexivity].
  cbn. f_equal. by eapply Hfg.
Qed.

Lemma fieldname_not_empty (col : nat) (key : string) :
  FIELDNAMES !! col = Some key -> stored (VStr key) = VStr key.
Proof.
  intros Hk.
  do 13 (destruct col as [|col]; [injection Hk as <-; reflexivity|]).
  discriminate.
Qed.

Lemma row_entry_ext (vf vf' : nat -> nat -> value) (C r : nat) :
  (forall c, (1 <= c <= C)%nat -> vf r c = vf' r c) ->
  (forall c, (1 <= c <= C)%nat -> vf 1%nat c = vf' 1%nat c) ->
  row_entry vf C r = row_entry vf' C r.
Proof.
  intros Hr H1. unfold row_entry.
  rewrite (fmap_seq_ext (vf r) (vf' r) 1 C) by (intros; apply Hr; lia).
  by rewrite (fmap_seq_ext (vf 1%nat) (vf' 1%nat) 1 C) by (intros; apply H1; lia).
Qed.

Lemma row_entry_none (vf : nat -> nat -> value) (C r : nat) :
  (forall c, vf r c = VNone) -> row_entry vf C r = None.
Proof.
  intros Hr. unfold row_entry.
  assert (forallb is_none (vf r <$> seq 1 C) = true) as ->; [|reflexivity].
  apply all_none_spec, Forall_fmap, Forall_forall. intros c _. apply Hr.
Qed.

Lemma row_entry_widen (vf : nat -> nat -> value) (C k r : nat) :
  (forall r' c, (C < c)%nat -> vf r' c = VNone) ->
  row_entry vf (C + k) r = row_entry vf C r.
Proof.
  intros Hout. unfold row_entry.
  assert (forall r', Forall (fun v => v = VNone) (vf r' <$> seq (1 + C) k)) as Hnone.
  { intros r'. apply Forall_fmap, Forall_forall. intros c Hc.
    apply elem_of_seq in Hc. apply Hout. lia. }
  rewrite seq_app, !fmap_app, forallb_app.
  rewrite (proj2 (all_none_spec _) (Hnone r)), andb_true_r.
  destruct (forallb is_none (vf r <$> seq 1 C)); [reflexivity|]. f_equal.
  rewrite row_dict_app, (row_dict_nones _ _ _ _ (Hnone 1%nat)).
  apply row_dict_ext. intros j Hj. cbn. apply lookup_app_l.
  by rewrite length_fmap in *.
Qed.

Lemma rows_from_ext (vf vf' : nat -> nat -> value) (R C : nat) :
  (forall r c, (1 <= r <= R)%nat -> (1 <= c <= C)%nat -> vf r c = vf' r c) ->
  rows_from vf R C = rows_from vf' R C.
Proof.
  intros Hv. unfold rows_from. apply omap_seq_ext. intros r Hr.
  apply row_entry_ext; intros c Hc; apply Hv; lia.
Qed.

Lemma rows_from_widen (vf : nat -> nat -> value) (R C C' : nat) :
  (forall r c, (C < c)%nat -> vf r c = VNone) -> (C <= C')%nat ->
  rows_from vf R C' = rows_from vf R C.
Proof.
  intros Hout Hle. replace C' with (C + (C' - C))%nat by lia.
  unfold rows_from. apply omap_seq_ext. intros r _. by apply row_entry_widen.
Qed.

Lemma rows_from_heighten (vf : nat -> nat -> value) (R R' C : nat) :
  (forall r c, (R < r)%nat -> vf r c = VNone) -> (1 <= R <= R')%nat ->
  rows_from vf R' C = rows_from vf R C.
Proof.
  intros Hout Hle. unfold rows_from.
  replace (R' - 1)%nat with ((R - 1) + (R' - R))%nat by lia.
  rewrite seq_app, omap_app.
  rewrite (omap_seq_none _ (2 + (R - 1)) (R' - R)); [by rewrite app_nil_r|].
  intros r Hr. apply row_entry_none. intros c. apply Hout. lia.
Qed.


Lemma sheet_rows_any (ws : worksheet) (R C : nat) :
  (max_row ws <= R)%nat -> (max_column ws <= C)%nat ->
  sheet_rows ws = rows_from (sheet_value ws) R C.
Proof.
  intros HR HC.
  rewrite (rows_from_heighten _ (max_row ws) R C).
  - rewrite (rows_from_widen _ _ (max_column ws) C); [reflexivity| |exact HC].
    intros r c Hc. apply sheet_value_outside. by right.
  - intros r c Hr. apply sheet_value_outside. by left.
  - pose proof (max_row_pos ws). lia.
Qed.

(** ** Saving and reading *)

(** A saved cell reads as the cell held, the empty string as no value. *)
Lemma sheet_value_saved (ws : worksheet) (r c : nat) :
  sheet_value (saved_cells ws) r c = stored (sheet_value ws r c).
Proof.
  unfold sheet_value, ws_cell, saved_cells. rewrite lookup_fmap.
  match goal with |- context [filter ?P ws !! (r, c)] =>
    destruct (filter P ws !! (r, c)) as [y|] eqn:Hy end.
  - apply map_lookup_filter_Some in Hy as [-> _]. reflexivity.
  - apply map_lookup_filter_None in Hy as [-> | Hy]; [reflexivity|].
    destruct (ws !! (r, c)) as [x|] eqn:Hx; [|reflexivity].
    cbn. destruct (is_none (cell_value x)) eqn:Hn.
    + apply is_none_spec in Hn. by rewrite Hn.
    + exfalso. apply (Hy x eq_refl). by left.
Qed.

Lemma saved_cells_lookup (ws : worksheet) (k : nat * nat) (x : cell) :
  saved_cells ws !! k = Some x -> is_Some (ws !! k).
Proof.
  unfold saved_cells. rewrite lookup_fmap. intros Hx.
  apply fmap_Some in Hx as (y & Hy & _).
  apply map_lookup_filter_Some in Hy as [Hy _]. by eexists.
Qed.

Lemma max_row_saved (ws : worksheet) : (max_row (saved_cells ws) <= max_row ws)%nat.
Proof.
  apply max_row_le; [apply max_row_pos|].
  intros r c x [y Hy]%saved_cells_lookup. by eapply max_row_ge.
Qed.

Lemma max_column_saved (ws : worksheet) :
  (max_column (saved_cells ws) <= max_column ws)%nat.
Proof.
  apply max_column_le; [apply max_column_pos|].
  intros r c x [y Hy]%saved_cells_lookup. by eapply max_column_ge.
Qed.

Lemma stored_not_empty (v : value) : is_empty_text v = false -> stored v = v.
Proof. by destruct v as [|[|c s]|x|n|b|t]. Qed.

Lemma no_empty_text_stored (ws : worksheet) (r c : nat) :
  no_empty_text ws = true -> stored (sheet_value ws r c) = sheet_value ws r c.
Proof.
  intros Hws. unfold sheet_value, ws_cell.
  destruct (ws !! (r, c)) as [x|] eqn:Hx; [|reflexivity]. cbn.
  unfold no_empty_text in Hws. rewrite forallb_forall in Hws.
  specialize (Hws ((r, c), x)). cbn in Hws. apply stored_not_empty, negb_true_iff, Hws.
  by apply list_elem_of_In, elem_of_map_to_list.
Qed.


(** The rows read from what is saved of a sheet without empty strings are
    the rows read from the sheet, although the cells without value and
    style are not saved. *)
Lemma sheet_rows_saved (ws : worksheet) :
  no_empty_text ws = true -> sheet_rows (saved_cells ws) = sheet_rows ws.
Proof.
  intros Hws.
  rewrite (sheet_rows_any (saved_cells ws) (max_row ws) (max_column ws))
    by (first [apply max_row_saved | apply max_column_saved]).
  rewrite (sheet_rows_any ws (max_row ws) (max_column ws)) by lia.
  apply rows_from_ext. intros r c _ _.
  rewrite sheet_value_saved. by apply no_empty_text_stored.
Qed.

(** ** The header row *)







Section HeaderLoop.

(** The loop that writes the header into an empty sheet. *)
Let step (acc : worksheet) (cn : nat * string) : worksheet :=
  ws_write acc 1 (fst cn) (VStr (snd cn)).



End HeaderLoop.









(** ** What is read back of a written row *)

(** A row read under the header of the 13 fields takes its 13 values in the
    order of the fields. *)
Lemma row_dict_header (header vals : list value) (f : string -> value) :
  (13 <= length header)%nat ->
  (forall c, (c < length header)%nat ->
     header !! c = Some (from_option VStr VNone (FIELDNAMES !! c))) ->
  (forall col key, FIELDNAMES !! col = Some key -> vals !! col = Some (f key)) ->
  row_dict 0 header vals ∅ = row_dict 0 (VStr <$> FIELDNAMES) (f <$> FIELDNAMES) ∅.
Proof.
  intros Hlen Hheader Hvals.
  rewrite <- (take_drop 13 header), row_dict_app.
  assert (take 13 header = VStr <$> FIELDNAMES) as ->.
  { apply list_eq. intros c. destruct (decide (c < 13)%nat) as [Hlt|Hge].
    - rewrite lookup_take_lt, Hheader, list_lookup_fmap by lia.
      destruct (lookup_lt_is_Some_2 FIELDNAMES c ltac:(cbn; lia)) as [key ->].
      reflexivity.
    - rewrite !lookup_ge_None_2; [reflexivity| |].
      + rewrite length_fmap. cbn. lia.
      + rewrite length_take. lia. }
  rewrite row_dict_nones.
  - apply row_dict_ext. intros j Hj. rewrite length_fmap in Hj. cbn [Nat.add].
    destruct (lookup_lt_is_Some_2 FIELDNAMES j Hj) as [key Hk].
    by rewrite (Hvals j key Hk), list_lookup_fmap, Hk.
  - apply Forall_lookup. intros i x Hx. rewrite lookup_drop in Hx.
    rewrite Hheader in Hx by (apply lookup_lt_Some in Hx; lia).
    rewrite (lookup_ge_None_2 FIELDNAMES (13 + i)) in Hx by (cbn; lia).
    by injection Hx as <-.
Qed.

(** The row of a grid that holds the 13 stored fields of a result, under
    the header of the 13 fields, reads as [read_back] says. *)
Lemma written_row_entry (vf : nat -> nat -> value) (res : row) (R C : nat) :
  (13 <= C)%nat ->
  (forall c, vf 1%nat (S c) = from_option VStr VNone (FIELDNAMES !! c)) ->
  (forall c,
      vf R (S c)
      = from_option (fun key => stored (format_value key (dict_get res key (VStr ""))))
                    VNone (FIELDNAMES !! c)) ->
  row_entry vf C R = read_back res.
Proof.
  intros HC Hheader Hrow. unfold row_entry, read_back.
  assert (forallb is_none (vf R <$> seq 1 C) = blank_row res) as ->.
  { unfold blank_row, stored_fields.
    replace C with (13 + (C - 13))%nat by lia.
    rewrite seq_app, fmap_app, forallb_app.
    rewrite (seq_fieldnames_fmap (vf R)
               (fun key => stored (format_value key (dict_get res key (VStr "")))))
      by (intros col key Hk; by rewrite Hrow, Hk).
    assert (forallb is_none (vf R <$> seq (1 + 13) (C - 13)) = true) as ->;
      [|apply andb_true_r].
    apply all_none_spec, Forall_fmap, Forall_forall. intros c Hc.
    apply elem_of_seq in Hc. destruct c as [|c]; [lia|]. cbn.
    by rewrite Hrow, (lookup_ge_None_2 FIELDNAMES c) by (cbn; lia). }
  destruct (blank_row res); [reflexivity|]. f_equal.
  apply (row_dict_header _ _
           (fun key => stored (format_value key (dict_get res key (VStr ""))))).
  - by rewrite length_fmap, length_seq.
  - intros c Hc. rewrite length_fmap, length_seq in Hc.
    rewrite list_lookup_fmap, lookup_seq_lt by exact Hc. cbn. by rewrite Hheader.
  - intros col key Hk.
    assert (col < 13)%nat as Hcol by (by apply lookup_lt_Some in Hk).
    rewrite list_lookup_fmap, lookup_seq_lt by lia. cbn. by rewrite Hrow, Hk.
Qed.

Lemma format_stored (key key' : string) (v : value) :
  format_value key (stored (format_value key' v)) = format_value key' v.
Proof.
  pose proof (format_value_not_none key' v) as Hnone.
  pose proof (format_value_twice key' key v) as Htwice.
  destruct (format_value key' v) as [|[|c s]|x|n|b|t]; try discriminate;
    first [reflexivity | exact Htwice].
Qed.

Lemma read_back_get (res : row) (col : nat) (key : string) (dflt : value) :
  FIELDNAMES !! col = Some key ->
  dict_get (row_dict 0 (VStr <$> FIELDNAMES) (stored_fields res) ∅) key dflt
  = stored (format_value key (dict_get res key (VStr ""))).
Proof.
  intros Hk.
  do 13 (destruct col as [|col]; [injection Hk as <-; reflexivity|]).
  discriminate.
Qed.

Lemma read_back_fields (res r : row) :
  read_back res = Some r -> mirror_fields r = mirror_fields res.
Proof.
  unfold read_back. destruct (blank_row res); [discriminate|]. intros [= <-].
  unfold mirror_fields. apply fieldnames_fmap_ext. intros col key Hk.
  by rewrite (read_back_get res col key _ Hk), format_stored.
Qed.

Lemma mirror_text_ext (rows rows' : list row) :
  mirror_fields <$> rows = mirror_fields <$> rows' -> mirror_text rows = mirror_text rows'.
Proof. unfold mirror_text, mirror_records. by intros ->. Qed.

Lemma mirror_read_back (rows : list row) :
  mirror_fields <$> omap read_back rows
  = mirror_fields <$> filter (fun res => blank_row res = false) rows.
Proof.
  induction rows as [|res rows IH]; [reflexivity|].
  cbn [omap list_omap]. destruct (read_back res) as [r|] eqn:Hr.
  - rewrite filter_cons_True.
    + cbn [fmap list_fmap]. by rewrite IH, (read_back_fields res r Hr).
    + unfold read_back in Hr. by destruct (blank_row res).
  - rewrite filter_cons_False; [exact IH|].
    unfold read_back in Hr. by destruct (blank_row res).
Qed.


Lemma string_append_nil_r (s : string) : s +:+ "" = s.
Proof. induction s as [|c s IH]; [reflexivity|]. by rewrite append_cons, IH. Qed.



Lemma format_f_nonempty (dp : nat) (x : float) : PyFloat.format_f dp x <> "".
Proof.
  assert (forall (s : bool) (t u : string), t <> "" -> PyFloat.sign_str s +:+ t +:+ u <> "")
    as Hne.
  { intros s t u Ht. destruct t as [|c t]; [congruence|]. by destruct s. }
  unfold PyFloat.format_f.
  destruct (Prim2SF x) as [s|s| |s m e]; [|by destruct s|discriminate|];
    unfold PyFloat.render; apply Hne; apply pretty_N_digits.
Qed.

Lemma number_not_blank (res : row) (col : nat) (key : string) (x : float) :
  FIELDNAMES !! col = Some key -> res !! key = Some (VFloat x) -> blank_row res = false.
Proof.
  intros Hk Hx. apply not_true_iff_false. intros Hblank.
  apply all_none_spec in Hblank. unfold stored_fields in Hblank.
  rewrite Forall_fmap, Forall_lookup in Hblank. specialize (Hblank col key Hk).
  assert (stored (format_value key (dict_get res key (VStr ""))) = VNone) as Hs
    by exact Hblank.
  unfold dict_get in Hs. rewrite Hx in Hs.
  change (stored (format_number key x) = VNone) in Hs.
  rewrite format_number_spec in Hs.
  pose proof (format_f_nonempty (spec_places key) x) as Hne.
  unfold stored in Hs. by destruct (PyFloat.format_f (spec_places key) x).
Qed.

Lemma calculated_coefficient (res : row) :
  calculated res -> exists x : float, res !! "C_rr" = Some (VFloat x).
Proof.
  intros (en & lbls & Hcalc). unfold calculate in Hcalc.
  destruct (parse_float_list (entry_idle en)) as [idle|]; [|discriminate].
  cbn [mbind result_bind] in Hcalc.
  destruct (parse_float_list (entry_load en)) as [load|]; [|discriminate].
  cbn [mbind result_bind] in Hcalc.
  destruct (parse_weight (entry_weight en)) as [m_hang|]; [|discriminate].
  cbn [mbind result_bind] in Hcalc.
  destruct (compute_result idle load m_hang) as [core|] eqn:Hcore; [|discriminate].
  cbn [mbind result_bind] in Hcalc.
  apply compute_result_shape in Hcore
    as (v & I0 & IL & me & P0 & PL & Prr & C & ->).
  injection Hcalc as _ <-. by exists C.
Qed.

Lemma calculated_not_blank (res : row) : calculated res -> blank_row res = false.
Proof.
  intros [x Hx]%calculated_coefficient.
  by apply (number_not_blank res 12 "C_rr" x).
Qed.

Lemma filter_not_blank (rows : list row) :
  Forall calculated rows -> filter (fun res => blank_row res = false) rows = rows.
Proof.
  induction 1 as [|res rows Hres _ IH]; [reflexivity|].
  rewrite filter_cons_True by (by apply calculated_not_blank). by rewrite IH.
Qed.

(** ** Appending a row and reading it back *)







(** ** Saving a row and reading the spreadsheet *)








(** ** Saving a row, then exporting *)





(** ** The workbook created from the list, read back *)

Section XlsxLoop.

(** The loop that writes one row of the created workbook. *)
Variable row_idx : nat.
Variable val : nat * string -> value.
Variable fmt : style.

Let step (acc : worksheet) (cn : nat * string) : worksheet :=
  xlsx_write acc row_idx (fst cn) (val cn) fmt.

Lemma xlsx_loop_other (l : list (nat * string)) (ws : worksheet) (r c : nat) :
  (r <> S row_idx \/ c ∉ S <$> l.*1) -> foldl step ws l !! (r, c) = ws !! (r, c).
Proof.
  revert ws. induction l as [|[c0 k0] l IH]; intros ws Hrc; [reflexivity|].
  cbn [foldl]. rewrite IH.
  - unfold step, xlsx_write. cbn [fst snd]. apply lookup_insert_ne.
    intros [= <- <-]. destruct Hrc as [Hr | Hc]; [congruence|]. apply Hc. cbn. left.
  - destruct Hrc as [Hr | Hc]; [by left|]. right. cbn in Hc.
    intros Hin. apply Hc. by right.
Qed.

Lemma xlsx_loop_here (l : list (nat * string)) (ws : worksheet)
    (col : nat) (key : string) :
  NoDup l.*1 -> (col, key) ∈ l ->
  foldl step ws l !! (S row_idx, S col)
  = Some {| cell_value := stored (val (col, key)); cell_style := Some fmt |}.
Proof.
  revert ws.
  induction l as [|[c0 k0] l IH]; intros ws Hnd Hin; [by apply elem_of_nil in Hin|].
  cbn in Hnd. apply NoDup_cons in Hnd as [Hc0 Hnd].
  cbn [foldl].
  apply elem_of_cons in Hin as [[= <- <-] | Hin]; [|by apply IH].
  rewrite xlsx_loop_other.
  - unfold step, xlsx_write. cbn [fst snd]. by rewrite lookup_insert_eq.
  - right. intros Hin. apply list_elem_of_fmap in Hin as (c' & [= <-] & Hin).
    contradiction.
Qed.

End XlsxLoop.

Lemma fieldnames_columns0 (col : nat) (key : string) :
  FIELDNAMES !! col = Some key ->
  (col, key) ∈ zip (seq 0 (length FIELDNAMES)) FIELDNAMES.
Proof.
  intros Hk.
  do 13 (destruct col as [|col]; [injection Hk as <-; set_solver|]).
  discriminate.
Qed.

Lemma fieldnames_columns0_nodup :
  NoDup (zip (seq 0 (length FIELDNAMES)) FIELDNAMES).*1.
Proof. cbn. apply NoDup_ListNoDup. repeat constructor; cbn; lia. Qed.

Lemma fieldnames_column_numbers0 :
  S <$> (zip (seq 0 (length FIELDNAMES)) FIELDNAMES).*1 = seq 1 13.
Proof. reflexivity. Qed.

Lemma xlsx_write_row_other (res : row) (idx : nat) (ws : worksheet) (r c : nat) :
  (r <> S idx \/ ~ (1 <= c <= 13)%nat) ->
  xlsx_write_row res idx ws !! (r, c) = ws !! (r, c).
Proof.
  intros Hrc. unfold xlsx_write_row.
  apply (xlsx_loop_other idx
           (fun cn => format_value (snd cn) (dict_get res (snd cn) (VStr "")))
           cell_format).
  destruct Hrc as [Hr | Hc]; [by left|]. right.
  rewrite fieldnames_column_numbers0, elem_of_seq. lia.
Qed.

Lemma xlsx_write_row_here (res : row) (idx : nat) (ws : worksheet)
    (col : nat) (key : string) :
  FIELDNAMES !! col = Some key ->
  xlsx_write_row res idx ws !! (S idx, S col)
  = Some {| cell_value := stored (format_value key (dict_get res key (VStr "")));
            cell_style := Some cell_format |}.
Proof.
  intros Hk. unfold xlsx_write_row.
  apply (xlsx_loop_here idx
           (fun cn => format_value (snd cn) (dict_get res (snd cn) (VStr "")))
           cell_format _ ws col key fieldnames_columns0_nodup).
  by apply fieldnames_columns0.
Qed.

Lemma rows_loop_other (l : list (nat * row)) (ws : worksheet) (r c : nat) :
  (Forall (fun ir => r <> S (fst ir)) l \/ ~ (1 <= c <= 13)%nat) ->
  foldl (fun acc ir => xlsx_write_row (snd ir) (fst ir) acc) ws l !! (r, c)
  = ws !! (r, c).
Proof.
  revert ws. induction l as [|[idx res] l IH]; intros ws Hrc; [reflexivity|].
  cbn [foldl fst snd]. rewrite IH.
  - apply xlsx_write_row_other. destruct Hrc as [Hr | Hc]; [|by right].
    left. by apply Forall_cons in Hr as [? _].
  - destruct Hrc as [Hr | Hc]; [|by right]. left. by apply Forall_cons in Hr as [_ ?].
Qed.

Lemma rows_loop_here (l : list (nat * row)) (ws : worksheet) (idx : nat) (res : row)
    (col : nat) (key : string) :
  NoDup l.*1 -> (idx, res) ∈ l -> FIELDNAMES !! col = Some key ->
  foldl (fun acc ir => xlsx_write_row (snd ir) (fst ir) acc) ws l !! (S idx, S col)
  = Some {| cell_value := stored (format_value key (dict_get res key (VStr "")));
            cell_style := Some cell_format |}.
Proof.
  intros Hnd Hin Hk. revert ws Hnd Hin.
  induction l as [|[i0 r0] l IH]; intros ws Hnd Hin; [by apply elem_of_nil in Hin|].
  cbn in Hnd. apply NoDup_cons in Hnd as [Hi0 Hnd].
  cbn [foldl fst snd].
  apply elem_of_cons in Hin as [[= <- <-] | Hin]; [|by apply IH].
  rewrite rows_loop_other.
  - by apply xlsx_write_row_here.
  - left. apply Forall_forall. intros [i1 r1] Hin1 [= <-]. apply Hi0.
    apply list_elem_of_fmap. by exists (idx, r1).
Qed.

Lemma create_workbook_sheet (rows : list row) :
  create_workbook rows = {| wb_sheets := [("Data", created_sheet rows)]; wb_active := 0 |}.
Proof. reflexivity. Qed.

Lemma numbered_rows_fst (rows : list row) :
  (zip (seq 1 (length rows)) rows).*1 = seq 1 (length rows).
Proof. apply fst_zip. by rewrite length_seq. Qed.

Lemma numbered_rows_lookup (rows : list row) (i : nat) (res : row) :
  rows !! i = Some res -> (S i, res) ∈ zip (seq 1 (length rows)) rows.
Proof.
  intros Hi. apply list_elem_of_lookup. exists i.
  rewrite lookup_zip_with, lookup_seq_lt by (by eapply lookup_lt_Some).
  cbn. by rewrite Hi.
Qed.

Lemma created_lookup_outside (rows : list row) (r c : nat) :
  (r = 0 \/ length rows + 1 < r \/ ~ (1 <= c <= 13))%nat ->
  created_sheet rows !! (r, c) = None.
Proof.
  intros Hrc. unfold created_sheet.
  rewrite rows_loop_other.
  - rewrite (xlsx_loop_other 0 (fun cn => VStr (snd cn)) header_format);
      [apply lookup_empty|].
    destruct Hrc as [Hr | [Hr | Hc]]; [left; lia | left; lia | right].
    rewrite fieldnames_column_numbers0, elem_of_seq. lia.
  - destruct Hrc as [Hr | [Hr | Hc]]; [left | left | by right];
      apply Forall_forall; intros [i res] Hin%elem_of_zip_l; cbn;
      apply elem_of_seq in Hin; lia.
Qed.

Lemma created_header_cell (rows : list row) (col : nat) (key : string) :
  FIELDNAMES !! col = Some key ->
  created_sheet rows !! (1, S col)%nat
  = Some {| cell_value := VStr key; cell_style := Some header_format |}.
Proof.
  intros Hk. unfold created_sheet. rewrite rows_loop_other.
  - rewrite (xlsx_loop_here 0 (fun cn => VStr (snd cn)) header_format _ ∅ col key
               fieldnames_columns0_nodup (fieldnames_columns0 col key Hk)).
    cbn [snd]. by rewrite (fieldname_not_empty col key Hk).
  - left. apply Forall_forall. intros [i res] Hin%elem_of_zip_l. cbn.
    apply elem_of_seq in Hin. lia.
Qed.

Lemma created_header_value (rows : list row) (c : nat) :
  sheet_value (created_sheet rows) 1 (S c) = from_option VStr VNone (FIELDNAMES !! c).
Proof.
  destruct (FIELDNAMES !! c) as [key|] eqn:Hk.
  - unfold sheet_value, ws_cell. by rewrite (created_header_cell rows c key Hk).
  - apply sheet_value_missing, created_lookup_outside. right. right.
    apply lookup_ge_None_1 in Hk. change (length FIELDNAMES) with 13%nat in Hk. lia.
Qed.

Lemma created_data_value (rows : list row) (i : nat) (res : row)
    (col : nat) (key : string) :
  rows !! i = Some res -> FIELDNAMES !! col = Some key ->
  sheet_value (created_sheet rows) (S (S i)) (S col)
  = stored (format_value key (dict_get res key (VStr ""))).
Proof.
  intros Hi Hk. unfold sheet_value, ws_cell, created_sheet.
  rewrite (rows_loop_here _ _ (S i) res col key); [reflexivity| | |exact Hk].
  - rewrite numbered_rows_fst. apply NoDup_seq.
  - by apply numbered_rows_lookup.
Qed.

Lemma created_max_column (rows : list row) : max_column (created_sheet rows) = 13%nat.
Proof.
  apply Nat.le_antisymm.
  - apply max_column_le; [lia|]. intros r c x Hx.
    destruct (decide (c <= 13)%nat) as [|Hc]; [assumption|].
    rewrite created_lookup_outside in Hx by lia. discriminate.
  - apply (max_column_ge _ 1 13 _ (created_header_cell rows 12 "C_rr" eq_refl)).
Qed.

Lemma created_max_row (rows : list row) :
  (max_row (created_sheet rows) <= S (length rows))%nat.
Proof.
  apply max_row_le; [lia|]. intros r c x Hx.
  destruct (decide (r <= S (length rows))%nat) as [|Hr]; [assumption|].
  rewrite created_lookup_outside in Hx by lia. discriminate.
Qed.

Lemma created_sheet_rows (rows : list row) :
  sheet_rows (created_sheet rows) = omap read_back rows.
Proof.
  rewrite (sheet_rows_any _ (S (length rows)) 13)
    by (first [apply created_max_row | by rewrite created_max_column]).
  unfold rows_from. replace (S (length rows) - 1)%nat with (length rows) by lia.
  apply omap_seq_list. intros i res Hi.
  apply written_row_entry; [lia | apply created_header_value|].
  intros c. destruct (FIELDNAMES !! c) as [key|] eqn:Hk.
  - by apply created_data_value.
  - apply sheet_value_missing, created_lookup_outside. right. right.
    apply lookup_ge_None_1 in Hk. change (length FIELDNAMES) with 13%nat in Hk. lia.
Qed.

(** X3.  The workbook created from the list holds one sheet, "Data", whose
    header row is exactly the list of the 13 field names: it reads as the
    13 names in their order, each of its cells holds its name in the header
    format, and it has no cell beyond column 13, whatever rows are written
    below it. *)
Theorem created_header (rows : list row) :
  exists ws : worksheet,
    wb_sheets (create_workbook rows) = [("Data", ws)] /\
    row_values ws 1 = VStr <$> FIELDNAMES /\
    (forall (col : nat) (key : string),
        FIELDNAMES !! col = Some key ->
        ws !! (1, S col)%nat
        = Some {| cell_value := VStr key; cell_style := Some header_format |}) /\
    (forall (c : nat) (x : cell), ws !! (1, c)%nat = Some x -> (1 <= c <= 13)%nat).
Proof.
  exists (created_sheet rows). split; [reflexivity|]. split; [|split].
  - unfold row_values. rewrite created_max_column.
    apply (seq_fieldnames_fmap (sheet_value (created_sheet rows) 1) VStr).
    intros col key Hk. by rewrite created_header_value, Hk.
  - apply created_header_cell.
  - intros c x Hx. destruct (decide (1 <= c <= 13)%nat) as [|Hc]; [assumption|].
    rewrite created_lookup_outside in Hx by (right; right; exact Hc). discriminate.
Qed.

Lemma created_header_witness :
  exists ws : worksheet,
    wb_sheets (create_workbook [saved_row]) = [("Data", ws)] /\
    row_values ws 1 = VStr <$> FIELDNAMES /\
    ws !! (1, 1)%nat = Some (header_cell "Tire name / type") /\
    ws !! (1, 14)%nat = None.
Proof.
  destruct (created_header [saved_row]) as (ws & Hsheets & Hrow & Hcells & Hout).
  exists ws. split; [exact Hsheets|]. split; [exact Hrow|].
  split; [apply (Hcells 0%nat "Tire name / type"); reflexivity|].
  destruct (ws !! (1, 14)%nat) as [x|] eqn:Hx; [|reflexivity].
  apply Hout in Hx. lia.
Defined.

(** ** The first export *)

Lemma data_sheet_created (rows : list row) :
  data_sheet (create_workbook rows) = Ok (0%nat, created_sheet rows).
Proof. reflexivity. Qed.

Lemma on_go_to_excel_first (a : RollingResistanceApp) (w : world) :
  path_exists (files w) (filename_xlsx a) = false ->
  saved_rows a <> [] ->
  on_go_to_excel a w
  = Returned a
      (show (OpenFile (filename_xlsx a))
         (with_files
            (<[filename_csv a := Text (mirror_text (omap read_back (saved_rows a)))]>
               (<[filename_xlsx a := Xlsx (create_workbook (saved_rows a))]> (files w)))
            w)).
Proof.
  intros Hex Hrows. unfold on_go_to_excel, ensure_workbook. rewrite Hex. cbn [negb].
  destruct (saved_rows a) as [|r rs] eqn:Hlist; [congruence|].
  unfold read_rows, load_workbook. rewrite lookup_insert_eq. bind_ok.
  rewrite data_sheet_created. bind_ok. cbn [snd].
  by rewrite created_sheet_rows.
Qed.

(** X12.  The first export: with no spreadsheet on disk and a list that is
    not empty, Go to Excel creates the workbook from the list, and both the
    rows read back from it and the records of the CSV file are those of the
    list, in its order, without the rows whose 13 formatted fields are all
    empty (the reading loop skips them).  When every row of the list is the
    record of a calculation, none is left out.  (The rows are taken to hold
    plain text and numbers.) *)
Theorem first_export (a : RollingResistanceApp) (w : world) :
  path_exists (files w) (filename_xlsx a) = false ->
  saved_rows a <> [] ->
  forallb plain_row (saved_rows a) = true ->
  filename_csv a <> filename_xlsx a ->
  let w' := outcome_world (on_go_to_excel a w) in
  let kept := filter (fun res => blank_row res = false) (saved_rows a) in
  files w' !! filename_xlsx a = Some (Xlsx (create_workbook (saved_rows a))) /\
  read_rows (files w') (filename_xlsx a) = Ok (omap read_back (saved_rows a)) /\
  length (omap read_back (saved_rows a)) = length kept /\
  files w' !! filename_csv a = Some (Text (mirror_text kept)) /\
  (Forall calculated (saved_rows a) -> kept = saved_rows a).
Proof.
  intros Hex Hrows _ Hne w' kept. subst w'.
  rewrite (on_go_to_excel_first a w Hex Hrows).
  cbn [outcome_world show with_files files].
  split; [by rewrite lookup_insert_ne, lookup_insert_eq by exact Hne|].
  split.
  { unfold read_rows, load_workbook.
    rewrite lookup_insert_ne, lookup_insert_eq by exact Hne. bind_ok.
    rewrite data_sheet_created. bind_ok. cbn [snd]. by rewrite created_sheet_rows. }
  split.
  { pose proof (f_equal length (mirror_read_back (saved_rows a))) as Hlen.
    by rewrite !length_fmap in Hlen. }
  split; [|apply filter_not_blank].
  rewrite lookup_insert_eq. do 2 f_equal. apply mirror_text_ext, mirror_read_back.
Qed.

Lemma first_export_witness :
  files (outcome_world (on_go_to_excel app_with_saved_row empty_world))
    !! "/data/rolling_resistance_data.csv"
  = Some (Text (csv_record FIELDNAMES +:+ "B;2.5;;;;;;;;;;;0.070000" +:+
                String CR (String LF ""))) /\
  files (outcome_world (on_go_to_excel app_with_saved_row empty_world))
    !! "/data/rolling_resistance_data.xlsx"
  = Some (Xlsx (create_workbook [saved_row])).
Proof.
  pose proof (first_export app_with_saved_row empty_world eq_refl
                ltac:(discriminate) eq_refl ltac:(discriminate)) as Hexport.
  cbv zeta in Hexport. destruct Hexport as (Hxlsx & _ & _ & Hcsv & _).
  split; [exact Hcsv | exact Hxlsx].
Defined.

(** ** From the form to the files *)

(** X13.  Calculate, Save to list, Go to Excel, on a fresh list and with no
    spreadsheet on disk: when the calculation succeeds, the workbook is
    created with the one record, the CSV file holds the header record and
    the record of the result, and the user is told that one row is saved
    and that the spreadsheet is opened.  (The texts of the form are taken
    to be plain.) *)
Theorem calculate_save_export (en : entries) (a : RollingResistanceApp) (w : world)
    (lbls : list (string * string)) (res : row) :
  calculate en = Ok (lbls, res) ->
  plain_row res = true ->
  saved_rows a = [] ->
  path_exists (files w) (filename_xlsx a) = false ->
  filename_csv a <> filename_xlsx a ->
  let end_state := run [Calculate en; SaveToList; GoToExcel] a w in
  files (snd end_state) !! filename_xlsx a = Some (Xlsx (create_workbook [res])) /\
  files (snd end_state) !! filename_csv a
  = Some (Text (csv_record FIELDNAMES +:+ csv_record (mirror_fields res))) /\
  shown (snd end_state) = (shown w ++ [InfoSaved 1; OpenFile (filename_xlsx a)])%list /\
  saved_rows (fst end_state) = [res] /\
  labels (fst end_state) = lbls.
Proof.
  intros Hcalc _ Hrows Hex Hne end_state.
  set (a1 := {| saved_rows := saved_rows a; last_result := Some res;
                filename_xlsx := filename_xlsx a; filename_csv := filename_csv a;
                labels := lbls |}).
  set (a2 := {| saved_rows := [res]; last_result := Some res;
                filename_xlsx := filename_xlsx a; filename_csv := filename_csv a;
                labels := lbls |}).
  assert (on_calculate en a w = Returned a1 w) as Hstep1.
  { unfold on_calculate. by rewrite Hcalc. }
  assert (on_save_to_list a1 w = Returned a2 (show (InfoSaved 1) w)) as Hstep2.
  { unfold on_save_to_list, _append_last_result_to_excel_if_exists.
    cbn [a1 last_result saved_rows filename_xlsx filename_csv labels].
    rewrite Hrows, Hex. reflexivity. }
  assert (calculated res) as Hres by (by exists en, lbls).
  subst end_state. cbn [run handle].
  rewrite Hstep1. cbn [outcome_app outcome_world].
  rewrite Hstep2. cbn [outcome_app outcome_world].
  rewrite (on_go_to_excel_first a2 (show (InfoSaved 1) w) Hex ltac:(discriminate)).
  cbn [outcome_app outcome_world fst snd show with_files files shown a2
       saved_rows filename_xlsx filename_csv labels].
  split; [by rewrite lookup_insert_ne, lookup_insert_eq by exact Hne|].
  split.
  { rewrite lookup_insert_eq. do 2 f_equal.
    rewrite (mirror_text_ext _ [res]).
    - unfold mirror_text, mirror_records. cbn [fmap list_fmap foldr].
      by rewrite string_append_nil_r.
    - rewrite mirror_read_back, filter_not_blank; [reflexivity|].
      by constructor. }
  split; [by rewrite <- app_assoc|]. by split.
Qed.

Lemma calculate_save_export_witness :
  files (snd (run [Calculate scenario_entries; SaveToList; GoToExcel]
                empty_app empty_world))
    !! "/data/rolling_resistance_data.csv"
  = Some (Text (csv_record FIELDNAMES +:+
                "Conti. GP;2.5;0.50 0.51 0.49;1.20 1.22 1.18;" +:+
                "0.500;1.200;2.000;4.888;7.193;6.00;14.40;8.40;0.024351" +:+
                String CR (String LF ""))) /\
  shown (snd (run [Calculate scenario_entries; SaveToList; GoToExcel]
                empty_app empty_world))
  = [InfoSaved 1; OpenFile "/data/rolling_resistance_data.xlsx"].
Proof.
  assert (is_ok (calculate scenario_entries) = true) as Hok by (vm_compute; reflexivity).
  destruct (calculate scenario_entries) as [[lbls res]|e] eqn:Hcalc; [|discriminate].
  assert (plain_row res = true) as Hplain.
  { assert (forall r : result (list (string * string) * row),
               r = Ok (lbls, res) ->
               match r with Ok (_, r') => plain_row r' | Raise _ => false end
               = plain_row res) as Hr by (by intros r ->).
    rewrite <- (Hr _ Hcalc). vm_compute. reflexivity. }
  pose proof (calculate_save_export scenario_entries empty_app empty_world lbls res
                Hcalc Hplain eq_refl eq_refl ltac:(discriminate)) as Hrun.
  cbv zeta in Hrun. destruct Hrun as (_ & Hcsv & Hshown & _).
  split; [|exact Hshown].
  etrans; [exact Hcsv|]. do 2 f_equal.
  f_equal.
  assert (forall r : result (list (string * string) * row),
             r = Ok (lbls, res) ->
             match r with Ok (_, r') => mirror_fields r' | Raise _ => [] end
             = mirror_fields res) as Hfields by (by intros r ->).
  specialize (Hfields _ Hcalc). rewrite <- Hfields. vm_compute. reflexivity.
Defined.

(** ** Where the rows come from *)

Lemma handle_calculated (act : action) (a : RollingResistanceApp) (w : world) :
  from_calculations a -> from_calculations (outcome_app (handle act a w)).
Proof.
  intros Ha. pose proof Ha as [Hrows Hlast].
  destruct act as [en| | |]; unfold handle.
  - unfold on_calculate.
    destruct (calculate en) as [[lbls res]|[]] eqn:Hcalc; cbn [outcome_app];
      try exact Ha.
    split; [exact Hrows|]. cbn [last_result]. intros r [= <-]. by exists en, lbls.
  - unfold on_save_to_list.
    destruct (last_result a) as [res|] eqn:Hres; cbn [outcome_app]; [|exact Ha].
    split; cbn [saved_rows last_result].
    + apply Forall_app. split; [exact Hrows|]. constructor; [|constructor].
      by apply Hlast.
    + intros r [= <-]. by apply Hlast.
  - unfold on_go_to_excel.
    destruct (ensure_workbook a (files w)) as [fs1|]; [|exact Ha].
    destruct (read_rows fs1 (filename_xlsx a)); exact Ha.
  - unfold on_plot_pressure_vs_crr.
    destruct (plot_rows a (files w)) as [rows|e|]; [|exact Ha..].
    destruct (group_rows rows []) as [[|gr gs]|e]; exact Ha.
Qed.

(** X14.  Whatever buttons are pressed: when the list and the last result
    hold only records of successful calculations, as they do when the
    program starts, they do so afterwards.  The rows a Plot or an export
    takes from the list are never from anywhere else. *)
Theorem rows_are_calculated (acts : list action) (a : RollingResistanceApp) (w : world) :
  from_calculations a -> from_calculations (fst (run acts a w)).
Proof.
  revert a w. induction acts as [|act acts IH]; intros a w Ha; [exact Ha|].
  cbn [run]. apply IH. by apply handle_calculated.
Qed.

Lemma rows_are_calculated_witness :
  from_calculations
    (fst (run [Calculate scenario_entries; SaveToList; GoToExcel; SaveToList]
              empty_app empty_world)).
Proof.
  apply (rows_are_calculated _ empty_app empty_world).
  split; [constructor | discriminate].
Defined.

(** ** Reading back the numbers the program writes *)















(** ** Plotting the rows the program wrote *)






